(** * BC hospitals scraper: a shallow embedding of [bc_hospitals_scraper.py]

    The pipeline fetches a listing page, builds one record per table row,
    enriches every record from its own detail page, and assembles a
    de-duplicated, sorted frame that is written as CSV.

    Modelling conventions.
    - Python [str] is [string]; a character is a code point below 256, so
      the whitespace class of [\s] and [str.strip] is the set of code
      points 9-13, 28-32, 133 and 160, and [\d] is the ten ASCII digits.
    - Python [float] is the primitive binary64 [float]; its truth value is
      [x != 0.0].
    - A parsed document is a tree of [Tag]s and [NavigableString]s, as
      BeautifulSoup exposes it.
    - What the script takes from libraries without defining it (the
      [float()] constructor on text, the lxml parser, [urljoin], the CSV
      writer of pandas) is the interface [Extern]; [Demo.lib] is an
      instance on which the model runs.
    - The network is an oracle giving the outcome of each GET; the task
      of every record has its own, so that two requests for one URL may
      end differently.
    - Writes to the diagnostic stream are collected in a writer monad,
      the warnings of the pool in task order.
    - Waiting is not represented: neither the timeout of a request nor
      the pause of [time.sleep]; the errors that [time.sleep] and the
      pool raise for their arguments are. *)

From Stdlib Require Import ZArith NArith Bool List Ascii String Lia.
From Stdlib Require Import DecimalString PrimFloat Uint63.
From Stdlib Require Import Sorted Permutation.
Import ListNotations.

Local Open Scope string_scope.
Local Open Scope list_scope.

(** ** Text *)

Module PyStr.

Definition is_space (c : ascii) : bool :=
  let n := N_of_ascii c in
  (((9 <=? n) && (n <=? 13)) || ((28 <=? n) && (n <=? 32))
   || (n =? 133) || (n =? 160))%N.

Definition is_digit (c : ascii) : bool :=
  let n := N_of_ascii c in ((48 <=? n) && (n <=? 57))%N.

(** [str.lower] on code points below 256. *)
Definition lower_char (c : ascii) : ascii :=
  let n := N_of_ascii c in
  if (((65 <=? n) && (n <=? 90)) || ((192 <=? n) && (n <=? 214))
      || ((216 <=? n) && (n <=? 222)))%N
  then ascii_of_N (n + 32) else c.

Fixpoint lower (s : string) : string :=
  match s with
  | EmptyString => EmptyString
  | String c r => String (lower_char c) (lower r)
  end.

Definition startswith (s p : string) : bool := String.prefix p s.

Fixpoint lstrip (s : string) : string :=
  match s with
  | EmptyString => EmptyString
  | String c r => if is_space c then lstrip r else s
  end.

Fixpoint rstrip (s : string) : string :=
  match s with
  | EmptyString => EmptyString
  | String c r =>
      match rstrip r with
      | EmptyString => if is_space c then EmptyString else String c EmptyString
      | r' => String c r'
      end
  end.

Definition strip (s : string) : string := rstrip (lstrip s).

(** [re.sub(r"\s+", " ", s)]: every maximal run of whitespace becomes one
    space.  [in_run] tells that the previous character was whitespace. *)
Fixpoint sub_ws_from (in_run : bool) (s : string) : string :=
  match s with
  | EmptyString => EmptyString
  | String c r =>
      if is_space c
      then (if in_run then sub_ws_from true r
            else String " " (sub_ws_from true r))
      else String c (sub_ws_from false r)
  end.

Definition sub_ws (s : string) : string := sub_ws_from false s.

(** [s.replace(old, "")] for a non-empty [old]: the occurrences of [old]
    are removed, leftmost first and without overlap.  [skip] counts the
    characters of the current occurrence still to drop. *)
Fixpoint remove_from (old : string) (skip : nat) (s : string) : string :=
  match s with
  | EmptyString => EmptyString
  | String c r =>
      match skip with
      | S k => remove_from old k r
      | O => if String.prefix old s
             then remove_from old (String.length old - 1) r
             else String c (remove_from old 0 r)
      end
  end.

Definition remove (old s : string) : string :=
  match old with
  | EmptyString => s
  | _ => remove_from old 0 s
  end.

(** The separators of the pattern [[;, ]+]. *)
Definition is_sep (c : ascii) : bool :=
  (Ascii.eqb c ";" || Ascii.eqb c "," || Ascii.eqb c " ")%char.

(** [re.split(r"[;, ]+", s)]: the pieces between maximal runs of
    separators, the empty pieces at the two ends included.  [cur] is the
    piece being read, [in_run] tells that the previous character was a
    separator. *)
Fixpoint split_from (cur : string) (in_run : bool) (s : string)
  : list string :=
  match s with
  | EmptyString => [cur]
  | String c r =>
      if is_sep c
      then (if in_run then split_from cur true r
            else cur :: split_from EmptyString true r)
      else split_from (cur ++ String c EmptyString) false r
  end.

Definition re_split_seps (s : string) : list string :=
  split_from EmptyString false s.

Definition nonempty (s : string) : bool :=
  match s with EmptyString => false | _ => true end.

(** [re.search(r"(\d{1,4})", s)]: at the leftmost digit, the longest run
    of at most four digits. *)
Fixpoint take_digits (n : nat) (s : string) : string :=
  match n, s with
  | S k, String c r =>
      if is_digit c then String c (take_digits k r) else EmptyString
  | _, _ => EmptyString
  end.

Fixpoint search_digits (s : string) : option string :=
  match s with
  | EmptyString => None
  | String c r =>
      if is_digit c then Some (take_digits 4 s) else search_digits r
  end.

(** [int(t)] on a text of ASCII digits; anything else is the
    [ValueError] case. *)
Fixpoint int_digits (acc : Z) (s : string) : option Z :=
  match s with
  | EmptyString => Some acc
  | String c r =>
      if is_digit c
      then int_digits (10 * acc + (Z.of_N (N_of_ascii c) - 48)) r
      else None
  end.

Definition int (s : string) : option Z :=
  match s with
  | EmptyString => None
  | _ => int_digits 0 s
  end.

Definition nl : string := String (ascii_of_nat 10) EmptyString.

Definition str_of_Z (z : Z) : string := NilZero.string_of_int (Z.to_int z).

(** [f"{n:,}"]: decimal digits grouped by three from the right. *)
Fixpoint group3 (k : nat) (rev_digits : list ascii) : list ascii :=
  match rev_digits with
  | [] => []
  | d :: ds =>
      match k, ds with
      | 2%nat, _ :: _ => d :: ","%char :: group3 0 ds
      | _, _ => d :: group3 (S k) ds
      end
  end.

Definition format_thousands (n : nat) : string :=
  string_of_list_ascii
    (rev (group3 0 (rev (list_ascii_of_string (str_of_Z (Z.of_nat n)))))).

End PyStr.

(** [re.sub(r"\s+", " ", s).strip()] *)
Definition _clean_text (s : string) : string :=
  PyStr.strip (PyStr.sub_ws s).

(** ** Documents *)

#[warning="-register-all"] Inductive node : Type :=
| NavigableString (s : string)
| Tag (name : string) (classes : list string)
      (attrs : list (string * string)) (contents : list node).

Module Soup.

Definition name (n : node) : string :=
  match n with Tag nm _ _ _ => nm | NavigableString _ => "" end.

Definition has_class (c : string) (n : node) : bool :=
  match n with
  | Tag _ cls _ _ => existsb (String.eqb c) cls
  | NavigableString _ => false
  end.

Fixpoint assoc (k : string) (l : list (string * string)) : option string :=
  match l with
  | [] => None
  | (k', v) :: r => if String.eqb k k' then Some v else assoc k r
  end.

(** [tag.get(k)] *)
Definition get (k : string) (n : node) : option string :=
  match n with
  | Tag _ _ ats _ => assoc k ats
  | NavigableString _ => None
  end.

Definition has_attr (k : string) (n : node) : bool :=
  match get k n with Some _ => true | None => false end.

(** The tags below [n], in document order. *)
Fixpoint descendants (n : node) : list node :=
  match n with
  | NavigableString _ => []
  | Tag _ _ _ cs =>
      flat_map (fun c => match c with
                         | NavigableString _ => []
                         | Tag _ _ _ _ => c :: descendants c
                         end) cs
  end.

Fixpoint strings (n : node) : list string :=
  match n with
  | NavigableString s => [s]
  | Tag _ _ _ cs => flat_map strings cs
  end.

Definition get_text (sep : string) (n : node) : string :=
  String.concat sep (strings n).

(** [select_one] and [find] with a simple selector, [select] and
    [find_all]: the first, or all, of the descendants that match. *)
Definition select_one (p : node -> bool) (n : node) : option node :=
  find p (descendants n).

Definition select (p : node -> bool) (n : node) : list node :=
  filter p (descendants n).

Definition named (nm : string) (n : node) : bool := String.eqb (name n) nm.

Definition heading (n : node) : bool := named "h2" n || named "h3" n.

(** The tags of the document in document order, each with the flag
    "lies below the element whose id is [bodyContent]". *)
Fixpoint walk_body (inside : bool) (n : node) : list (bool * node) :=
  match n with
  | NavigableString _ => []
  | Tag _ _ _ cs =>
      flat_map
        (fun c =>
           match c with
           | NavigableString _ => []
           | Tag _ _ _ _ =>
               (inside, c)
                 :: walk_body
                      (inside ||
                       match get "id" c with
                       | Some i => String.eqb i "bodyContent"
                       | None => false
                       end) c
           end) cs
  end.

End Soup.

(** ** Records *)

(** The dict of one facility.  Its keys are fixed: the six of the listing
    row and the three that enrichment adds.  A key that is missing and a
    key that holds [None] read the same through [rec.get] and in the
    frame, and are both [None] here. *)
Record rec : Type := mkRec {
  Health_Authority : string;
  Facility_Name : string;
  Location_City : string;
  Latitude : option float;
  Longitude : option float;
  Hospital_Page_URL : option string;
  Beds_Raw : option string;
  Beds : option Z;
  Beds_Source_URL : option string;
}.

(** ** Library functions the script calls *)

Class Extern : Type := {
  (** [float(text)]: [None] is the [ValueError] case. *)
  float_of_str : string -> option float;
  (** [BeautifulSoup(text, "lxml")]: the root holds the document. *)
  BeautifulSoup : string -> node;
  (** [urllib.parse.urljoin(base, href)] *)
  urljoin : string -> string -> string;
  (** [df.to_csv(path, index=False, encoding="utf-8")]: the bytes written
      for the rows of the frame, in index order. *)
  to_csv : list rec -> string;
  (** [time.sleep(d)] for a [d] that is longer than the platform can
      wait: the call raises [OverflowError] or [OSError]. *)
  sleep_too_long : float -> bool;
}.

(** ** Truth values *)

(** Truth value of an optional float: [None] and [0.0] are false. *)
Definition truthy_float (x : option float) : bool :=
  match x with
  | Some f => negb (PrimFloat.eqb f 0%float)
  | None => false
  end.

(** Truth value of an optional text: [None] and the empty text are false. *)
Definition truthy_str (x : option string) : bool :=
  match x with
  | Some s => PyStr.nonempty s
  | None => false
  end.

(** [a or b] *)
Definition py_or (a b : option float) : option float :=
  if truthy_float a then a else b.

(** ** The diagnostic stream *)

Definition W (A : Type) : Type := (A * list string)%type.

Definition ret {A} (a : A) : W A := (a, []).

Definition bind {A B} (m : W A) (k : A -> W B) : W B :=
  let (a, w1) := m in let (b, w2) := k a in (b, w1 ++ w2).

Definition warn (line : string) : W unit := (tt, [line]).

Notation "x <- m ;; k" := (bind m (fun x => k))
  (at level 61, m at next level, right associativity).

(** ** Page fetcher *)

Record Response : Type := mkResponse {
  status_code : Z;
  text : string;
}.

(** Outcome of [session.get]: a response, or a [RequestException] whose
    text is [e]. *)
Inductive get_result : Type :=
| Returned (resp : Response)
| RequestException (e : string).

Definition WIKI_BASE : string := "https://en.wikipedia.org".

Definition LIST_URL : string :=
  "https://en.wikipedia.org/wiki/List_of_hospitals_in_British_Columbia".

Definition HEALTH_SECTIONS : list string :=
  [ "Fraser Health"; "Interior Health"; "Island Health"; "Northern Health";
    "Vancouver Coastal Health"; "Provincial Health Services Authority";
    "Providence Health Care"; "Other" ].

Definition _fetch (get : string -> get_result) (url : string)
  : W (option Response) :=
  match get url with
  | Returned resp =>
      if (status_code resp =? 200)%Z
      then ret (Some resp)
      else _ <- warn ("[warn] GET " ++ url ++ " -> "
                        ++ PyStr.str_of_Z (status_code resp) ++ PyStr.nl)%string ;;
           ret None
  | RequestException e =>
      _ <- warn ("[warn] GET " ++ url ++ " -> " ++ e ++ PyStr.nl)%string ;;
      ret None
  end.

Section Pipeline.

Context {E : Extern}.

(** ** Coordinate extractor *)

Definition extract_coords_from_node (n : node)
  : option float * option float :=
  let geo_result :=
    match Soup.select_one (Soup.has_class "geo") n with
    | Some geo =>
        let txt := _clean_text (Soup.get_text " " geo) in
        let parts := PyStr.re_split_seps txt in
        let parts := filter PyStr.nonempty parts in
        match parts with
        | p0 :: p1 :: _ =>
            match float_of_str p0, float_of_str p1 with
            | Some la, Some lo => Some (la, lo)
            | _, _ => None
            end
        | _ => None
        end
    | None => None
    end in
  match geo_result with
  | Some (la, lo) => (Some la, Some lo)
  | None =>
      let lat_node := Soup.select_one (Soup.has_class "latitude") n in
      let lon_node := Soup.select_one (Soup.has_class "longitude") n in
      let latlon_result :=
        match lat_node, lon_node with
        | Some lat_node, Some lon_node =>
            match float_of_str (PyStr.strip (Soup.get_text "" lat_node)),
                  float_of_str (PyStr.strip (Soup.get_text "" lon_node)) with
            | Some la, Some lo => Some (la, lo)
            | _, _ => None
            end
        | _, _ => None
        end in
      match latlon_result with
      | Some (la, lo) => (Some la, Some lo)
      | None =>
          let maplink :=
            Soup.select_one
              (fun e => Soup.named "a" e
                        && Soup.has_class "mw-kartographer-maplink" e) n in
          match maplink with
          | Some maplink =>
              match Soup.get "data-lat" maplink,
                    Soup.get "data-lon" maplink with
              | Some dlat, Some dlon =>
                  match float_of_str dlat, float_of_str dlon with
                  | Some la, Some lo => (Some la, Some lo)
                  | _, _ => (None, None)
                  end
              | _, _ => (None, None)
              end
          | None => (None, None)
          end
      end
  end.

(** ** Markup parser and listing record builder *)

Definition heading_title (hx : node) : string :=
  PyStr.strip (PyStr.remove "[edit]" (_clean_text (Soup.get_text " " hx))).

(** The tags after the first heading below [bodyContent] whose title
    starts with [section_title]; [None] when no heading matches. *)
Fixpoint find_all_next_of_heading (section_title : string)
  (doc : list (bool * node)) : option (list (bool * node)) :=
  match doc with
  | [] => None
  | (in_body, hx) :: rest =>
      if in_body && Soup.heading hx
         && PyStr.startswith (PyStr.lower (heading_title hx))
              (PyStr.lower section_title)
      then Some rest
      else find_all_next_of_heading section_title rest
  end.

Fixpoint wikitables_until_heading (sibs : list (bool * node)) : list node :=
  match sibs with
  | [] => []
  | (_, sib) :: rest =>
      if Soup.heading sib then []
      else if Soup.named "table" sib && Soup.has_class "wikitable" sib
           then sib :: wikitables_until_heading rest
           else wikitables_until_heading rest
  end.

Definition extract_tables_under_section (soup : node) (section_title : string)
  : list node :=
  match find_all_next_of_heading section_title (Soup.walk_body false soup) with
  | None => []
  | Some sibs => wikitables_until_heading sibs
  end.

(** The body of the row loop: [None] is a [continue]. *)
Definition row_record (section : string) (tr : node) : option rec :=
  let tds := Soup.select (fun e => Soup.named "td" e || Soup.named "th" e) tr in
  match tds with
  | facility_cell :: city_cell :: _ =>
      if Soup.named "th" facility_cell then None
      else
        let facility_name := _clean_text (Soup.get_text " " facility_cell) in
        if negb (PyStr.nonempty facility_name) then None
        else
          let a := Soup.select_one
                     (fun e => Soup.named "a" e && Soup.has_attr "href" e)
                     facility_cell in
          let hospital_href :=
            match a with Some a => Soup.get "href" a | None => None end in
          let hospital_url :=
            match hospital_href with
            | Some h => if PyStr.nonempty h then Some (urljoin WIKI_BASE h)
                        else None
            | None => None
            end in
          let city_txt := _clean_text (Soup.get_text " " city_cell) in
          let '(lat, lon) := extract_coords_from_node tr in
          Some {| Health_Authority := section;
                  Facility_Name := facility_name;
                  Location_City := city_txt;
                  Latitude := lat;
                  Longitude := lon;
                  Hospital_Page_URL := hospital_url;
                  Beds_Raw := None; Beds := None; Beds_Source_URL := None |}
  | _ => None
  end.

Definition parse_list_tables (resp_html : string) : list rec :=
  let soup := BeautifulSoup resp_html in
  flat_map
    (fun section =>
       flat_map
         (fun table =>
            flat_map
              (fun tr => match row_record section tr with
                         | Some r => [r]
                         | None => []
                         end)
              (Soup.select (Soup.named "tr") table))
         (extract_tables_under_section soup section))
    HEALTH_SECTIONS.

(** ** Detail enricher *)

(** The loop over the rows of the infobox, with its [continue] and
    [break]. *)
Fixpoint scan_infobox_rows (trs : list node) : option string * option Z :=
  match trs with
  | [] => (None, None)
  | tr :: rest =>
      match Soup.select_one (Soup.named "th") tr,
            Soup.select_one (Soup.named "td") tr with
      | Some th, Some td =>
          let label := PyStr.lower (_clean_text (Soup.get_text " " th)) in
          if PyStr.startswith label "beds"
          then
            let beds_raw := _clean_text (Soup.get_text " " td) in
            let beds_int :=
              match PyStr.search_digits (PyStr.remove "," beds_raw) with
              | Some g => PyStr.int g
              | None => None
              end in
            (Some beds_raw, beds_int)
          else scan_infobox_rows rest
      | _, _ => scan_infobox_rows rest
      end
  end.

Definition parse_beds_and_coords_from_hospital
  (get : string -> get_result) (url : string)
  : W (option string * option Z * option float * option float) :=
  r <- _fetch get url ;;
  match r with
  | None => ret (None, None, None, None)
  | Some r =>
      let soup := BeautifulSoup (text r) in
      let '(lat, lon) := extract_coords_from_node soup in
      let '(beds_raw, beds_int) :=
        match Soup.select_one
                (fun e => Soup.named "table" e && Soup.has_class "infobox" e)
                soup with
        | Some infobox =>
            scan_infobox_rows (Soup.select (Soup.named "tr") infobox)
        | None => (None, None)
        end in
      ret (beds_raw, beds_int, lat, lon)
  end.

(** One task of the pool.  [time.sleep(delay)] only delays the task and
    is not represented. *)
Definition worker (get : string -> get_result) (r : rec) : W rec :=
  let url := Hospital_Page_URL r in
  page <-
     match url with
     | Some u => if PyStr.nonempty u
                 then parse_beds_and_coords_from_hospital get u
                 else ret (None, None, None, None)
     | None => ret (None, None, None, None)
     end ;;
  let '(beds_raw, beds_int, lat2, lon2) := page in
  let lat := py_or (Latitude r) lat2 in
  let lon := py_or (Longitude r) lon2 in
  ret {| Health_Authority := Health_Authority r;
         Facility_Name := Facility_Name r;
         Location_City := Location_City r;
         Latitude := lat;
         Longitude := lon;
         Hospital_Page_URL := Hospital_Page_URL r;
         Beds_Raw := beds_raw;
         Beds := beds_int;
         Beds_Source_URL := if truthy_str beds_raw then url else None |}.

(** [ex.map(worker, rows)] yields the results in the order of [rows];
    task [i] sees the network through [get i].  The warnings of the tasks
    are listed in task order. *)
Fixpoint enrich_from (i : nat) (get : nat -> string -> get_result)
  (rows : list rec) : W (list rec) :=
  match rows with
  | [] => ret []
  | r :: rest =>
      r' <- worker (get i) r ;;
      rest' <- enrich_from (S i) get rest ;;
      ret (r' :: rest')
  end.

Definition enrich_with_hospital_pages (get : nat -> string -> get_result)
  (rows : list rec) : W (list rec) :=
  enrich_from 0 get rows.

End Pipeline.

(** ** Dataset assembler *)

(** The frame built by [pd.DataFrame(full_rows, columns=[...])] is the list
    of the records, in order, each seen through the nine columns. *)

Definition same_name_city (a b : rec) : bool :=
  String.eqb (Facility_Name a) (Facility_Name b)
  && String.eqb (Location_City a) (Location_City b).

(** [df.drop_duplicates(subset=["Facility Name","Location City"])]: a row
    is dropped when an earlier row has the same values in the two
    columns. *)
Fixpoint drop_duplicates_from (seen rows : list rec) : list rec :=
  match rows with
  | [] => []
  | r :: rest =>
      if existsb (same_name_city r) seen
      then drop_duplicates_from seen rest
      else r :: drop_duplicates_from (r :: seen) rest
  end.

Definition drop_duplicates (rows : list rec) : list rec :=
  drop_duplicates_from [] rows.

(** Order of the rows on (Health Authority, Facility Name): texts compare
    code point by code point. *)
Definition sort_leb (a b : rec) : bool :=
  match String.compare (Health_Authority a) (Health_Authority b) with
  | Lt => true
  | Gt => false
  | Eq => String.leb (Facility_Name a) (Facility_Name b)
  end.

(** [df.sort_values(["Health Authority","Facility Name"])]: pandas sorts
    on several columns with a stable lexicographic sort; the rows are
    inserted from the last to the first, each before the rows that are not
    smaller. *)
Fixpoint sort_insert (r : rec) (sorted : list rec) : list rec :=
  match sorted with
  | [] => [r]
  | x :: rest => if sort_leb r x then r :: sorted
                 else x :: sort_insert r rest
  end.

Fixpoint sort_values (rows : list rec) : list rec :=
  match rows with
  | [] => []
  | r :: rest => sort_insert r (sort_values rest)
  end.

Definition assemble (full_rows : list rec) : list rec :=
  sort_values (drop_duplicates full_rows).

(** ** The run *)

Record Args : Type := mkArgs {
  out : string;
  workers : Z;
  delay : float;
}.

Record World : Type := mkWorld {
  (** outcome of the GET of the listing page *)
  get_listing : string -> get_result;
  (** outcome of the GET issued by the task of the i-th record *)
  get_detail : nat -> string -> get_result;
}.

Record Run : Type := mkRun {
  exit_code : Z;
  stderr : list string;
  stdout : list string;
  (** the file written, as path and contents *)
  written : option (string * string);
}.

Section Main.

Context {E : Extern}.

(** [time.sleep(d)] raises [ValueError] when [d] is negative or not a
    number, and the platform's error when [d] is too long. *)
Definition time_sleep_raises (d : float) : bool :=
  negb (PrimFloat.leb 0%float d) || sleep_too_long d.

(** Whether [enrich_with_hospital_pages(rows, max_workers, delay)] raises
    instead of returning: [ThreadPoolExecutor(max_workers=...)] raises
    [ValueError] unless the pool size is positive, before any task runs;
    a task whose record has a detail URL calls [time.sleep(delay)] when
    [delay] has a true truth value, and the exception of that call
    surfaces from [ex.map].  [enrich_with_hospital_pages] above is the
    function at arguments for which it returns. *)
Definition enrich_raises (max_workers : Z) (delay : float) (rows : list rec)
  : bool :=
  (max_workers <=? 0)%Z
  || (negb (PrimFloat.eqb delay 0%float) && time_sleep_raises delay
      && existsb (fun r => truthy_str (Hospital_Page_URL r)) rows).

(** An exception that nothing catches ends the run with exit code 1; the
    traceback of the interpreter, and the warnings of the tasks that ran
    before the exception surfaced, are not represented in [stderr].  The
    output path is taken to be writable. *)
Definition main (w : World) (args : Args) : Run :=
  let '(list_resp, warn1) := _fetch (get_listing w) LIST_URL in
  match list_resp with
  | None =>
      {| exit_code := 2;
         stderr := warn1 ++ ["Failed to load list page. Aborting." ++ PyStr.nl]%string;
         stdout := [];
         written := None |}
  | Some list_resp =>
      let base_rows := parse_list_tables (text list_resp) in
      match base_rows with
      | [] =>
          {| exit_code := 3;
             stderr := warn1 ++ ["No tables parsed from list page. Aborting."
                                   ++ PyStr.nl]%string;
             stdout := [];
             written := None |}
      | _ :: _ =>
          if enrich_raises (workers args) (delay args) base_rows
          then {| exit_code := 1;
                  stderr := warn1;
                  stdout := [];
                  written := None |}
          else
            let '(full_rows, warn2) :=
              enrich_with_hospital_pages (get_detail w) base_rows in
            let df := assemble full_rows in
            {| exit_code := 0;
               stderr := warn1 ++ warn2;
               stdout := [("Wrote " ++ out args ++ " with "
                             ++ PyStr.format_thousands (List.length df)
                             ++ " rows.")%string];
               written := Some (out args, to_csv df) |}
      end
  end.

End Main.

(** ** A reference instance of the library interface

    Used to run the model on concrete pages.  [float_of_str] reads plain
    decimal literals ([sign] digits [.] digits, surrounded by whitespace)
    of at most fifteen digits: the value is the quotient of two integers
    that binary64 holds exactly, hence the correctly rounded value that
    [float()] returns.  Texts outside this fragment are not used in the
    examples, except texts that are no numbers at all. *)

Module Demo.

Fixpoint read_digits (acc : Z) (count : nat) (s : string)
  : Z * nat * string :=
  match s with
  | String c r =>
      if PyStr.is_digit c
      then read_digits (10 * acc + (Z.of_N (N_of_ascii c) - 48)) (S count) r
      else (acc, count, s)
  | EmptyString => (acc, count, s)
  end.

Definition unsigned_decimal (s : string) : option float :=
  let '(ip, n1, rest) := read_digits 0 0 s in
  let '(m, n2, rest) :=
    match rest with
    | String "." r =>
        let '(m, n2, rest') := read_digits ip 0 r in (m, n2, rest')
    | _ => (ip, 0%nat, rest)
    end in
  match rest with
  | EmptyString =>
      if ((1 <=? n1 + n2)%nat && (n1 + n2 <=? 15)%nat)%bool
      then Some (PrimFloat.div (PrimFloat.of_uint63 (Uint63.of_Z m))
                               (PrimFloat.of_uint63
                                  (Uint63.of_Z (10 ^ Z.of_nat n2))))
      else None
  | _ => None
  end.

Definition short_decimal (s : string) : option float :=
  match PyStr.strip s with
  | String "-" r => option_map PrimFloat.opp (unsigned_decimal r)
  | String "+" r => unsigned_decimal r
  | r => unsigned_decimal r
  end.

Definition el (name : string) (classes : list string)
  (attrs : list (string * string)) (contents : list node) : node :=
  Tag name classes attrs contents.

Definition document (body : list node) : node :=
  el "[document]" [] [] [el "html" [] [] [el "body" [] [] body]].

(** A detail page with a geotag and a capacity row. *)
Definition detail_page : node :=
  document
    [ el "span" ["geo"] [] [NavigableString "49.25; -123.5"];
      el "table" ["infobox"; "vcard"] []
        [ el "tr" [] [] [ el "th" [] [("colspan", "2")]
                            [NavigableString "Alpha Hospital"] ];
          el "tr" [] [] [ el "th" [] [] [NavigableString "Beds (2020)"];
                          el "td" [] [] [NavigableString "312 (acute)"] ];
          el "tr" [] [] [ el "th" [] [] [NavigableString "Beds"];
                          el "td" [] [] [NavigableString "999"] ] ] ].

(** A detail page whose capacity row has a value cell without text. *)
Definition empty_beds_page : node :=
  document
    [ el "table" ["infobox"] []
        [ el "tr" [] [] [ el "th" [] [] [NavigableString "Beds"];
                          el "td" [] [] [el "br" [] [] []] ] ] ].

(** A detail page whose capacity row holds no number. *)
Definition unknown_beds_page : node :=
  document
    [ el "table" ["infobox"] []
        [ el "tr" [] [] [ el "th" [] [] [NavigableString "Beds"];
                          el "td" [] [] [NavigableString "unknown"] ] ] ].

(** A listing page: two sections; the first table has a header row, a
    row without link whose geotag lies on the equator, and a linked row
    without coordinates. *)
Definition listing_page : node :=
  document
    [ el "div" [] [("id", "bodyContent")]
        [ el "h2" [] [] [NavigableString "Fraser Health";
                         el "span" ["mw-editsection"] []
                           [NavigableString "[edit]"]];
          el "table" ["wikitable"; "sortable"] []
            [ el "tr" [] [] [ el "th" [] [] [NavigableString "Name"];
                              el "th" [] [] [NavigableString "City"];
                              el "th" [] [] [NavigableString "Coordinates"] ];
              el "tr" [] []
                [ el "td" [] [] [NavigableString "Zero  Clinic"];
                  el "td" [] [] [NavigableString "Surrey"];
                  el "td" [] [] [el "span" ["geo"] []
                                   [NavigableString "0; -123.125"]] ];
              el "tr" [] []
                [ el "td" [] [] [ el "a" [] [("href", "/wiki/Alpha")]
                                    [NavigableString "Alpha Hospital"] ];
                  el "td" [] [] [NavigableString "Burnaby"];
                  el "td" [] [] [] ] ];
          el "h2" [] [] [NavigableString "Interior Health"];
          el "table" ["wikitable"] []
            [ el "tr" [] []
                [ el "td" [] [] [NavigableString "Omega Hospital"];
                  el "td" [] [] [NavigableString "Kelowna"] ] ] ] ].

(** A fragment whose geotag and map link disagree. *)
Definition geotag_and_maplink : node :=
  el "td" [] []
    [ el "a" ["mw-kartographer-maplink"]
        [("data-lat", "10.5"); ("data-lon", "20.25")]
        [NavigableString "map"];
      el "span" ["geo-dec"] [] [NavigableString "49.25 N 123.5 W"];
      el "span" ["geo"] [] [NavigableString " 49.25;  -123.5 "] ].

(** A fragment whose geotag has a token that is no number. *)
Definition broken_geotag_and_maplink : node :=
  el "td" [] []
    [ el "span" ["geo"] [] [NavigableString "49.25N; -123.5"];
      el "a" ["mw-kartographer-maplink"]
        [("data-lat", "10.5"); ("data-lon", "20.25")]
        [NavigableString "map"] ].

(** A fragment whose geotag starts with a word, and nothing else. *)
Definition labelled_geotag : node :=
  el "td" [] []
    [ el "span" ["geo"] [] [NavigableString "N 49.25 -123.125"] ].

Definition parse (html : string) : node :=
  if String.eqb html "<detail>" then detail_page
  else if String.eqb html "<empty beds>" then empty_beds_page
  else if String.eqb html "<unknown beds>" then unknown_beds_page
  else if String.eqb html "<listing>" then listing_page
  else document [].

(** A float as its mantissa and binary exponent. *)
Definition float_cell (f : float) : string :=
  let '(m, e) := PrimFloat.frshiftexp f in
  ((if PrimFloat.ltb f 0%float then "-" else "")
   ++ PyStr.str_of_Z (Uint63.to_Z (PrimFloat.normfr_mantissa m))
   ++ "p" ++ PyStr.str_of_Z (Uint63.to_Z e))%string.

Definition opt_cell {A} (f : A -> string) (x : option A) : string :=
  match x with Some a => f a | None => "" end.

(** A plain comma-separated writer for texts without commas, quotes or
    line breaks. *)
Definition csv_line (cells : list string) : string :=
  (String.concat "," cells ++ PyStr.nl)%string.

Definition csv_row (r : rec) : string :=
  csv_line [ Health_Authority r; Facility_Name r; Location_City r;
             opt_cell float_cell (Latitude r);
             opt_cell float_cell (Longitude r);
             opt_cell PyStr.str_of_Z (Beds r);
             opt_cell (fun s => s) (Beds_Raw r);
             opt_cell (fun s => s) (Beds_Source_URL r);
             opt_cell (fun s => s) (Hospital_Page_URL r) ].

Definition write_csv (rows : list rec) : string :=
  (csv_line [ "Health Authority"; "Facility Name"; "Location City";
              "Latitude"; "Longitude"; "Beds"; "Beds Raw";
              "Beds Source URL"; "Hospital Page URL" ]
   ++ String.concat "" (map csv_row rows))%string.

Definition lib : Extern :=
  {| float_of_str := short_decimal;
     BeautifulSoup := parse;
     urljoin := fun base href => (base ++ href)%string;
     to_csv := write_csv;
     sleep_too_long := fun d => PrimFloat.ltb 9000000000%float d |}.

End Demo.

(** ** Vocabulary of the statements *)

(** Both coordinates present, or both absent. *)
Definition paired (lat lon : option float) : Prop :=
  (lat = None /\ lon = None) \/ (lat <> None /\ lon <> None).

Definition name_city (r : rec) : string * string :=
  (Facility_Name r, Location_City r).

Definition sort_key (r : rec) : string * string :=
  (Health_Authority r, Facility_Name r).

(** Ascending lexicographic order on (section, name). *)
Definition lex_le (a b : rec) : Prop :=
  String.compare (Health_Authority a) (Health_Authority b) = Lt
  \/ (Health_Authority a = Health_Authority b
      /\ String.leb (Facility_Name a) (Facility_Name b) = true).

Definition has_sort_key (k : string * string) (r : rec) : bool :=
  String.eqb (fst k) (Health_Authority r)
  && String.eqb (snd k) (Facility_Name r).

(** No two different records of [rows] share a (name, city) pair or a
    (section, name) pair. *)
Definition keys_identify (rows : list rec) : Prop :=
  forall a b, In a rows -> In b rows ->
    name_city a = name_city b \/ sort_key a = sort_key b -> a = b.

(** What a row of the info table says about capacity: a label cell and a
    value cell, the label starting with the keyword whatever its case. *)
Definition capacity_row (tr : node) : bool :=
  match Soup.select_one (Soup.named "th") tr,
        Soup.select_one (Soup.named "td") tr with
  | Some th, Some _ =>
      PyStr.startswith (PyStr.lower (_clean_text (Soup.get_text " " th)))
        "beds"
  | _, _ => false
  end.

Fixpoint drop_non_digits (s : string) : string :=
  match s with
  | EmptyString => EmptyString
  | String c r => if PyStr.is_digit c then s else drop_non_digits r
  end.

Fixpoint leading_digits (s : string) : string :=
  match s with
  | EmptyString => EmptyString
  | String c r =>
      if PyStr.is_digit c then String c (leading_digits r) else EmptyString
  end.

Definition digit_value (c : ascii) : Z := Z.of_N (N_of_ascii c) - 48.

(** Value of a decimal numeral, digit by position. *)
Fixpoint decimal_value (s : string) : Z :=
  match s with
  | EmptyString => 0
  | String c r =>
      digit_value c * 10 ^ Z.of_nat (String.length r) + decimal_value r
  end.

(** The first run of digits of [s], cut after four digits, as a number;
    [None] when [s] has no digit. *)
Definition first_digit_run (s : string) : option Z :=
  match leading_digits (drop_non_digits s) with
  | EmptyString => None
  | run => Some (decimal_value (String.substring 0 4 run))
  end.

(** Capacity as the text describes it: the first capacity row decides. *)
Definition stated_capacity (trs : list node) : option string * option Z :=
  match find capacity_row trs with
  | None => (None, None)
  | Some tr =>
      match Soup.select_one (Soup.named "td") tr with
      | Some td =>
          let raw := _clean_text (Soup.get_text " " td) in
          (Some raw, first_digit_run (PyStr.remove "," raw))
      | None => (None, None)
      end
  end.

(** Separators of the geotag text: [;], [,] and whitespace. *)
Definition geo_sep (c : ascii) : bool :=
  (PyStr.is_space c || Ascii.eqb c ";" || Ascii.eqb c ",")%char.

Definition starts_token (sep : ascii -> bool) (s : string) : bool :=
  match s with
  | String c _ => negb (sep c)
  | EmptyString => false
  end.

(** The maximal runs of characters that are no separators. *)
Fixpoint tokens (sep : ascii -> bool) (s : string) : list string :=
  match s with
  | EmptyString => []
  | String c r =>
      if sep c then tokens sep r
      else if starts_token sep r
           then match tokens sep r with
                | t :: ts => String c t :: ts
                | [] => [String c EmptyString]
                end
           else String c EmptyString :: tokens sep r
  end.

Section Strategies.

Context {E : Extern}.

Definition parse_pair (a b : string) : option (float * float) :=
  match float_of_str a, float_of_str b with
  | Some la, Some lo => Some (la, lo)
  | _, _ => None
  end.

(** Strategy 1: the combined geotag, its first two tokens. *)
Definition geotag_strategy (n : node) : option (float * float) :=
  match Soup.select_one (Soup.has_class "geo") n with
  | Some geo =>
      match tokens geo_sep (Soup.get_text " " geo) with
      | t0 :: t1 :: _ => parse_pair t0 t1
      | _ => None
      end
  | None => None
  end.

(** Strategy 2: separate latitude and longitude elements. *)
Definition latlon_strategy (n : node) : option (float * float) :=
  match Soup.select_one (Soup.has_class "latitude") n,
        Soup.select_one (Soup.has_class "longitude") n with
  | Some la, Some lo =>
      parse_pair (PyStr.strip (Soup.get_text "" la))
                 (PyStr.strip (Soup.get_text "" lo))
  | _, _ => None
  end.

(** Strategy 3: the data attributes of a map link. *)
Definition maplink_strategy (n : node) : option (float * float) :=
  match Soup.select_one
          (fun e => Soup.named "a" e
                    && Soup.has_class "mw-kartographer-maplink" e) n with
  | Some link =>
      match Soup.get "data-lat" link, Soup.get "data-lon" link with
      | Some a, Some b => parse_pair a b
      | _, _ => None
      end
  | None => None
  end.

Fixpoint first_success (strategies : list (node -> option (float * float)))
  (n : node) : option float * option float :=
  match strategies with
  | [] => (None, None)
  | s :: rest =>
      match s n with
      | Some (la, lo) => (Some la, Some lo)
      | None => first_success rest n
      end
  end.

Definition numeric (t : string) : bool :=
  match float_of_str t with Some _ => true | None => false end.

(** The geotag read as "the first two tokens that are numbers". *)
Definition geotag_numeric_tokens (n : node) : option (float * float) :=
  match Soup.select_one (Soup.has_class "geo") n with
  | Some geo =>
      match filter numeric (tokens geo_sep (Soup.get_text " " geo)) with
      | t0 :: t1 :: _ => parse_pair t0 t1
      | _ => None
      end
  | None => None
  end.

End Strategies.

Section Task.

Context {E : Extern}.

(** What a task fetched for its record. *)
Definition page_of (get : string -> get_result) (r : rec)
  : W (option string * option Z * option float * option float) :=
  match Hospital_Page_URL r with
  | Some u => if PyStr.nonempty u
              then parse_beds_and_coords_from_hospital get u
              else ret (None, None, None, None)
  | None => ret (None, None, None, None)
  end.

End Task.

(** The record as it is when its detail fetch fails: the enrichment
    fields are null, everything else is kept. *)
Definition with_null_enrichment (r : rec) : rec :=
  {| Health_Authority := Health_Authority r;
     Facility_Name := Facility_Name r;
     Location_City := Location_City r;
     Latitude := Latitude r;
     Longitude := Longitude r;
     Hospital_Page_URL := Hospital_Page_URL r;
     Beds_Raw := None; Beds := None; Beds_Source_URL := None |}.

(** Inputs of the examples. *)
Definition zero_clinic (url : option string) : rec :=
  {| Health_Authority := "Fraser Health";
     Facility_Name := "Zero Clinic";
     Location_City := "Surrey";
     Latitude := Some 0%float;
     Longitude := Some (-123.125)%float;
     Hospital_Page_URL := url;
     Beds_Raw := None; Beds := None; Beds_Source_URL := None |}.

Definition plain_rec (section name city : string) : rec :=
  {| Health_Authority := section;
     Facility_Name := name;
     Location_City := city;
     Latitude := None; Longitude := None; Hospital_Page_URL := None;
     Beds_Raw := None; Beds := None; Beds_Source_URL := None |}.

Definition serve (status : Z) (body : string) : string -> get_result :=
  fun _ => Returned (mkResponse status body).

(** ** Vocabulary of the further statements *)

Definition is_wikitable (e : node) : bool :=
  Soup.named "table" e && Soup.has_class "wikitable" e.

(** A heading of the page body whose title starts with the section title,
    letter case apart: what the first loop of
    [extract_tables_under_section] looks for. *)
Definition section_heading (section_title : string) (p : bool * node) : bool :=
  fst p && Soup.heading (snd p)
  && PyStr.startswith (PyStr.lower (heading_title (snd p)))
       (PyStr.lower section_title).

Definition has_body_content (e : node) : bool :=
  match Soup.get "id" e with
  | Some i => String.eqb i "bodyContent"
  | None => false
  end.

(** What identifies a facility through the pipeline. *)
Definition identity (r : rec) : string * string * string * option string :=
  (Health_Authority r, Facility_Name r, Location_City r, Hospital_Page_URL r).

Definition has_url (r : rec) : bool := truthy_str (Hospital_Page_URL r).




(** ** Capacity, described without the helpers of the code *)

(** The words of a text joined by single spaces. *)
Definition words_joined (s : string) : string :=
  String.concat " " (tokens PyStr.is_space s).

Definition without_commas (s : string) : string :=
  string_of_list_ascii
    (filter (fun c => negb (Ascii.eqb c ","))
            (list_ascii_of_string s)).

(** The text starts with the given letters, each in either case. *)
Fixpoint starts_with_letters (letters : list (ascii * ascii)) (s : string)
  : bool :=
  match letters with
  | [] => true
  | (lo, up) :: rest =>
      match s with
      | String c r =>
          (Ascii.eqb c lo || Ascii.eqb c up) && starts_with_letters rest r
      | EmptyString => false
      end
  end.

Definition beds_keyword : list (ascii * ascii) :=
  [ ("b", "B"); ("e", "E"); ("d", "D"); ("s", "S") ]%char.

(** A row with a label cell and a value cell whose label, whitespace
    normalised, starts with the keyword in any letter case. *)
Definition capacity_label (tr : node) : bool :=
  match Soup.select_one (Soup.named "th") tr,
        Soup.select_one (Soup.named "td") tr with
  | Some th, Some _ =>
      starts_with_letters beds_keyword (words_joined (Soup.get_text " " th))
  | _, _ => false
  end.

Definition described_capacity (trs : list node) : option string * option Z :=
  match find capacity_label trs with
  | None => (None, None)
  | Some tr =>
      match Soup.select_one (Soup.named "td") tr with
      | Some td =>
          let raw := words_joined (Soup.get_text " " td) in
          (Some raw, first_digit_run (without_commas raw))
      | None => (None, None)
      end
  end.

(** The rows that count are those of the first table of class
    [infobox]. *)
Definition described_page_capacity (soup : node)
  : option string * option Z :=
  match find (fun e => Soup.named "table" e && Soup.has_class "infobox" e)
             (Soup.descendants soup) with
  | Some infobox =>
      described_capacity (filter (Soup.named "tr") (Soup.descendants infobox))
  | None => (None, None)
  end.

(** Further pages. *)
Module Pages.

Definition row (label value : string) : node :=
  Demo.el "tr" [] []
    [ Demo.el "th" [] [] [NavigableString label];
      Demo.el "td" [] [] [NavigableString value] ].

(** Label and value with irregular whitespace, capitals and a thousands
    separator; a second capacity row follows. *)
Definition spaced_page : node :=
  Demo.document
    [ Demo.el "table" ["infobox"] []
        [ row "Founded" "1950";
          row (" BEDS" ++ PyStr.nl ++ " (total) ")
              (PyStr.nl ++ " 1,250   beds " ++ PyStr.nl);
          row "Beds" "7" ] ].

(** A capacity row in a table that is no infobox, and an infobox without
    capacity row. *)
Definition beds_outside_page : node :=
  Demo.document
    [ Demo.el "table" ["wikitable"] [] [ row "Beds" "999" ];
      Demo.el "table" ["infobox"] [] [ row "Founded" "1950" ] ].

(** A capacity row in a table that is no infobox, before the infobox and
    its own capacity row. *)
Definition two_tables_page : node :=
  Demo.document
    [ Demo.el "table" ["wikitable"] [] [ row "Beds" "999" ];
      Demo.el "table" ["infobox"; "vcard"] [] [ row "Beds" "40" ] ].

(** The listing page without the element that carries the id
    [bodyContent]: the headings and tables lie directly in the body. *)
Definition bare_listing_page : node :=
  match Demo.listing_page with
  | Tag _ _ _ [Tag _ _ _ [Tag _ _ _ [Tag _ _ _ inner]]] =>
      Demo.document inner
  | other => other
  end.

Definition parse (html : string) : node :=
  if String.eqb html "<spaced>" then spaced_page
  else if String.eqb html "<beds outside>" then beds_outside_page
  else if String.eqb html "<two tables>" then two_tables_page
  else if String.eqb html "<bare listing>" then bare_listing_page
  else Demo.parse html.

Definition lib : Extern :=
  {| float_of_str := Demo.short_decimal;
     BeautifulSoup := parse;
     urljoin := fun base href => (base ++ href)%string;
     to_csv := Demo.write_csv;
     sleep_too_long := fun d => PrimFloat.ltb 9000000000%float d |}.

End Pages.

(** * Properties *)

(** ** Text lemmas *)

Lemma prefix_app (p q : string) : String.prefix p (p ++ q)%string = true.
Proof.
  induction p as [|c p IH]; simpl.
  - destruct q; reflexivity.
  - destruct (ascii_dec c c) as [_|n]; [exact IH | contradiction].
Qed.

Lemma string_app_assoc (a b c : string) :
  ((a ++ b) ++ c = a ++ (b ++ c))%string.
Proof. induction a as [|x a IH]; simpl; [reflexivity | now rewrite IH]. Qed.

(** ** Page fetcher *)

Lemma fetch_some_iff (get : string -> get_result) (url : string) (resp : Response) :
  fst (_fetch get url) = Some resp
  <-> get url = Returned resp /\ status_code resp = 200%Z.
Proof.
  unfold _fetch. destruct (get url) as [r|e]; simpl.
  - destruct (Z.eqb_spec (status_code r) 200) as [H200|Hne]; simpl.
    + split.
      * intros [= ->]. split; [reflexivity | exact H200].
      * intros [[= ->] _]. reflexivity.
    + split; [discriminate|]. intros [[= ->] H]. contradiction.
  - split; [discriminate|]. intros [H _]. discriminate H.
Qed.

Lemma fetch_none_iff (get : string -> get_result) (url : string) :
  fst (_fetch get url) = None
  <-> (exists e, get url = RequestException e)
      \/ (exists resp, get url = Returned resp /\ status_code resp <> 200%Z).
Proof.
  unfold _fetch. destruct (get url) as [r|e]; simpl.
  - destruct (Z.eqb_spec (status_code r) 200) as [H200|Hne]; simpl.
    + split; [discriminate|].
      intros [[e He]|[r' [[= <-] Hne]]]; [discriminate | contradiction].
    + split; [|reflexivity]. intros _. right. exists r. split; [reflexivity|exact Hne].
  - split; [|reflexivity]. intros _. left. exists e. reflexivity.
Qed.

(** C6, as amended: [_fetch] is a total function; it returns the response
    exactly when the GET answered with status 200, without a warning; on
    every other status (the other codes of the 2xx range included) and on
    every request exception it returns nothing and writes exactly one
    warning line that names the URL. *)
Theorem fetch_returns_exactly_on_200 :
  forall (get : string -> get_result) (url : string),
    (forall resp, fst (_fetch get url) = Some resp
                  <-> get url = Returned resp /\ status_code resp = 200%Z)
    /\ (fst (_fetch get url) = None
        <-> (exists e, get url = RequestException e)
            \/ (exists resp, get url = Returned resp
                             /\ status_code resp <> 200%Z))
    /\ (forall resp, fst (_fetch get url) = Some resp
                     -> snd (_fetch get url) = [])
    /\ (fst (_fetch get url) = None
        -> exists line, snd (_fetch get url) = [line]
                        /\ PyStr.startswith line ("[warn] GET " ++ url) = true).
Proof.
  intros get url. split; [|split; [|split]].
  - intros resp. apply fetch_some_iff.
  - apply fetch_none_iff.
  - intros resp. unfold _fetch. destruct (get url) as [r|e]; simpl.
    + destruct (status_code r =? 200)%Z; simpl; [reflexivity | discriminate].
    + discriminate.
  - unfold _fetch, PyStr.startswith. destruct (get url) as [r|e]; simpl.
    + destruct (status_code r =? 200)%Z; simpl; [discriminate|].
      intros _. eexists. split; [reflexivity|].
      change (String.prefix ("[warn] GET " ++ url)
                ("[warn] GET " ++ url ++ " -> "
                 ++ PyStr.str_of_Z (status_code r) ++ PyStr.nl) = true)%string.
      rewrite <- string_app_assoc. apply prefix_app.
    + intros _. eexists. split; [reflexivity|].
      change (String.prefix ("[warn] GET " ++ url)
                ("[warn] GET " ++ url ++ " -> " ++ e ++ PyStr.nl) = true)%string.
      rewrite <- string_app_assoc. apply prefix_app.
Qed.

Lemma fetch_returns_exactly_on_200_witness :
  let get := serve 404 "" in
  let url := "https://en.wikipedia.org/wiki/Alpha" in
  fst (_fetch get url) = None
  /\ exists line, snd (_fetch get url) = [line]
                  /\ PyStr.startswith line ("[warn] GET " ++ url) = true.
Proof.
  intros get url. split; [reflexivity|].
  apply (proj2 (proj2 (proj2 (fetch_returns_exactly_on_200 get url)))).
  reflexivity.
Defined.

(** C6, as stated, fails: status 203 lies in the 2xx range and the
    response has a body, yet the fetcher returns nothing and warns. *)
Lemma fetch_rejects_status_203 :
  (200 <= 203 < 300)%Z
  /\ _fetch (serve 203 "<html></html>") "https://en.wikipedia.org/wiki/Alpha"
     = (None, ["[warn] GET https://en.wikipedia.org/wiki/Alpha -> 203"
                 ++ PyStr.nl]%string).
Proof. split; [lia | reflexivity]. Qed.

(** ** Coordinate pairs *)

Section Coordinates.

Context {E : Extern}.

Lemma paired_none : paired None None.
Proof. left. split; reflexivity. Qed.

Lemma paired_some (a b : float) : paired (Some a) (Some b).
Proof. right. split; discriminate. Qed.

Lemma first_success_paired (l : list (node -> option (float * float))) (n : node) :
  paired (fst (first_success l n)) (snd (first_success l n)).
Proof.
  induction l as [|s l IH]; simpl.
  - apply paired_none.
  - destruct (s n) as [[la lo]|]; simpl; [apply paired_some | exact IH].
Qed.

(** The extractor yields both coordinates or none. *)
Lemma extract_coords_paired (n : node) :
  paired (fst (extract_coords_from_node n)) (snd (extract_coords_from_node n)).
Proof.
  unfold extract_coords_from_node.
  repeat match goal with
         | |- context [match ?x with _ => _ end] => destruct x
         end; simpl; first [apply paired_none | apply paired_some].
Qed.

Lemma row_record_paired (section : string) (tr : node) (r : rec) :
  row_record section tr = Some r -> paired (Latitude r) (Longitude r).
Proof.
  unfold row_record.
  destruct (Soup.select _ tr) as [|c0 [|c1 rest]]; try discriminate.
  destruct (Soup.named "th" c0); try discriminate.
  destruct (negb _); try discriminate.
  pose proof (extract_coords_paired tr) as Hp.
  destruct (extract_coords_from_node tr) as [lat lon].
  intros [= <-]. exact Hp.
Qed.

(** After record building the coordinates of every record are paired. *)
Lemma parse_list_tables_paired (html : string) (r : rec) :
  In r (parse_list_tables html) -> paired (Latitude r) (Longitude r).
Proof.
  unfold parse_list_tables. intros H.
  apply in_flat_map in H. destruct H as [section [_ H]].
  apply in_flat_map in H. destruct H as [table [_ H]].
  apply in_flat_map in H. destruct H as [tr [_ H]].
  destruct (row_record section tr) as [r'|] eqn:Hrow; simpl in H.
  - destruct H as [<-|[]]. eapply row_record_paired. exact Hrow.
  - destruct H.
Qed.

End Coordinates.

(** ** Detail enricher: one task *)

Section Worker.

Context {E : Extern}.

Lemma worker_result (get : string -> get_result) (r : rec) :
  fst (worker get r) =
  let '(beds_raw, beds_int, lat2, lon2) := fst (page_of get r) in
  {| Health_Authority := Health_Authority r;
     Facility_Name := Facility_Name r;
     Location_City := Location_City r;
     Latitude := py_or (Latitude r) lat2;
     Longitude := py_or (Longitude r) lon2;
     Hospital_Page_URL := Hospital_Page_URL r;
     Beds_Raw := beds_raw;
     Beds := beds_int;
     Beds_Source_URL := if truthy_str beds_raw
                        then Hospital_Page_URL r else None |}.
Proof.
  unfold worker, page_of, bind.
  destruct (match Hospital_Page_URL r with Some _ => _ | None => _ end)
    as [[[[br bi] la] lo] w].
  reflexivity.
Qed.

Lemma page_of_failed_fetch (get : string -> get_result) (r : rec) (u : string) :
  Hospital_Page_URL r = Some u ->
  fst (_fetch get u) = None ->
  fst (page_of get r) = (None, None, None, None).
Proof.
  intros Hu Hf. unfold page_of. rewrite Hu.
  destruct (PyStr.nonempty u); [|reflexivity].
  unfold parse_beds_and_coords_from_hospital, bind.
  destruct (_fetch get u) as [resp w]. simpl in Hf. subst resp. reflexivity.
Qed.

Lemma page_of_beds_need_url (get : string -> get_result) (r : rec) :
  truthy_str (Hospital_Page_URL r) = false ->
  fst (page_of get r) = (None, None, None, None).
Proof.
  unfold page_of, truthy_str.
  destruct (Hospital_Page_URL r) as [u|]; [|reflexivity].
  intros ->. reflexivity.
Qed.

(** Coordinates whose truth value is true survive the task. *)
Lemma worker_keeps_truthy_coordinates (get : string -> get_result) (r : rec) :
  truthy_float (Latitude r) = true ->
  truthy_float (Longitude r) = true ->
  Latitude (fst (worker get r)) = Latitude r
  /\ Longitude (fst (worker get r)) = Longitude r.
Proof.
  intros Hla Hlo. rewrite worker_result.
  destruct (fst (page_of get r)) as [[[br bi] la] lo]. simpl.
  unfold py_or. rewrite Hla, Hlo. split; reflexivity.
Qed.

(** Absent coordinates are filled with what the detail page gave. *)
Lemma worker_fills_absent_coordinates (get : string -> get_result) (r : rec) :
  Latitude r = None -> Longitude r = None ->
  Latitude (fst (worker get r)) = snd (fst (fst (page_of get r)))
  /\ Longitude (fst (worker get r)) = snd (fst (page_of get r)).
Proof.
  intros Hla Hlo. rewrite worker_result.
  destruct (fst (page_of get r)) as [[[br bi] la] lo]. simpl.
  rewrite Hla, Hlo. split; reflexivity.
Qed.

(** A record whose fetch failed, and whose coordinates are absent or have
    a true truth value, passes through with null enrichment fields. *)
Lemma worker_failed_fetch_passthrough (get : string -> get_result) (r : rec) (u : string) :
  Hospital_Page_URL r = Some u ->
  fst (_fetch get u) = None ->
  (Latitude r = None \/ truthy_float (Latitude r) = true) ->
  (Longitude r = None \/ truthy_float (Longitude r) = true) ->
  fst (worker get r) = with_null_enrichment r.
Proof.
  intros Hu Hf Hla Hlo. rewrite worker_result.
  rewrite (page_of_failed_fetch get r u Hu Hf). simpl.
  unfold with_null_enrichment, py_or. f_equal.
  - destruct Hla as [->| ->]; reflexivity.
  - destruct Hlo as [->| ->]; reflexivity.
Qed.

(** The pool returns one result per record, in the order of the input. *)
Lemma enrich_from_length (get : nat -> string -> get_result) (rows : list rec) :
  forall i, List.length (fst (enrich_from i get rows)) = List.length rows.
Proof.
  induction rows as [|r rows IH]; intros i; [reflexivity|].
  cbn [enrich_from]. unfold bind.
  destruct (worker (get i) r) as [r' w1].
  specialize (IH (S i)).
  destruct (enrich_from (S i) get rows) as [rest' w2].
  simpl in *. now rewrite IH.
Qed.

Lemma enrich_from_nth (get : nat -> string -> get_result) (rows : list rec) :
  forall i k r,
    nth_error rows k = Some r ->
    nth_error (fst (enrich_from i get rows)) k
    = Some (fst (worker (get (i + k)%nat) r)).
Proof.
  induction rows as [|x rows IH]; intros i k r Hk.
  - destruct k; discriminate.
  - cbn [enrich_from]. unfold bind.
    destruct (worker (get i) x) as [x' w1] eqn:Hw.
    specialize (IH (S i)).
    destruct (enrich_from (S i) get rows) as [rest' w2].
    destruct k as [|k]; simpl in *.
    + injection Hk as <-. now rewrite Nat.add_0_r, Hw.
    + rewrite (IH k r Hk). now rewrite Nat.add_succ_r.
Qed.

End Worker.

(** ** Coordinates through enrichment *)

(** C1, at the failing input: a record that carries the coordinates
    (0.0, -123.125) and links to a detail page whose geotag reads
    (49.25, -123.5) leaves the task with latitude 49.25: the latitude
    0.0 counts as false in [rec.get("Latitude") or lat2] and is replaced
    by the value of the detail page, while the longitude is kept. *)
Theorem zero_latitude_overwritten_by_detail_page :
  let r := zero_clinic (Some "https://en.wikipedia.org/wiki/Zero") in
  let r' := fst (@worker Demo.lib (serve 200 "<detail>") r) in
  Latitude r = Some 0%float /\ Longitude r = Some (-123.125)%float
  /\ Latitude r' = Some 49.25%float /\ Longitude r' = Some (-123.125)%float.
Proof. vm_compute. repeat split. Qed.

(** C2, at the failing input: the listing row of a facility on the
    equator is built with the paired coordinates (0.0, -123.125); after
    enrichment the record has no latitude and still has its longitude. *)
Theorem zero_latitude_unpaired_after_enrichment :
  let built := @parse_list_tables Demo.lib "<listing>" in
  let enriched :=
    fst (@enrich_with_hospital_pages Demo.lib (fun _ => serve 404 "") built) in
  map (fun r => (Facility_Name r, Latitude r, Longitude r)) built
  = [ ("Zero Clinic", Some 0%float, Some (-123.125)%float);
      ("Alpha Hospital", None, None); ("Omega Hospital", None, None) ]
  /\ map (fun r => (Facility_Name r, Latitude r, Longitude r)) enriched
     = [ ("Zero Clinic", None, Some (-123.125)%float);
         ("Alpha Hospital", None, None); ("Omega Hospital", None, None) ]
  /\ exists r, In r enriched /\ ~ paired (Latitude r) (Longitude r).
Proof.
  split; [vm_compute; reflexivity|]. split; [vm_compute; reflexivity|].
  exists (nth 0 (fst (@enrich_with_hospital_pages Demo.lib
                        (fun _ => serve 404 "")
                        (@parse_list_tables Demo.lib "<listing>")))
                (plain_rec "" "" "")).
  split.
  - vm_compute. left. reflexivity.
  - vm_compute. intros [[_ H]|[H _]]; [discriminate H | apply H; reflexivity].
Qed.

(** C5, at the failing input: the detail page of a record with the
    coordinates (0.0, -123.125) answers 404; the record does not pass
    through unchanged, its latitude is lost. *)
Theorem failed_fetch_drops_zero_latitude :
  forall (E : Extern),
    let u := "https://en.wikipedia.org/wiki/Zero" in
    let r := zero_clinic (Some u) in
    let r' := fst (worker (serve 404 "") r) in
    fst (_fetch (serve 404 "") u) = None
    /\ Latitude r = Some 0%float
    /\ Latitude r' = None
    /\ r' <> with_null_enrichment r.
Proof.
  intros E u r r'. repeat split.
  intros H. apply (f_equal Latitude) in H. discriminate H.
Qed.

(** ** Capacity source *)

(** C10, as stated, fails: the capacity row of the page has a value cell
    without text; the raw capacity text is present (the empty text) and
    no number can be extracted, yet no source URL is recorded. *)
Lemma empty_capacity_text_has_no_source :
  let r := {| Health_Authority := "Fraser Health";
              Facility_Name := "Alpha Hospital";
              Location_City := "Burnaby";
              Latitude := None; Longitude := None;
              Hospital_Page_URL := Some "https://en.wikipedia.org/wiki/Alpha";
              Beds_Raw := None; Beds := None; Beds_Source_URL := None |} in
  let r' := fst (@worker Demo.lib (serve 200 "<empty beds>") r) in
  Beds_Raw r' = Some "" /\ Beds r' = None /\ Beds_Source_URL r' = None.
Proof. vm_compute. repeat split. Qed.

(** C10, as amended: after the task, the source URL is present exactly
    when the raw capacity text is present and not empty, and it is then
    the detail URL of the record; a failed fetch leaves both absent.  On
    the example pages: a capacity row whose text holds no number records
    the source URL, a page without capacity row does not. *)
Theorem beds_source_iff_nonempty_raw :
  forall (E : Extern) (get : string -> get_result) (r : rec),
    let r' := fst (worker get r) in
    (Beds_Source_URL r' <> None <-> truthy_str (Beds_Raw r') = true)
    /\ (truthy_str (Beds_Raw r') = true
        -> Beds_Source_URL r' = Hospital_Page_URL r)
    /\ (forall u, Hospital_Page_URL r = Some u -> fst (_fetch get u) = None
                  -> Beds_Raw r' = None /\ Beds_Source_URL r' = None)
    /\ (let d := {| Health_Authority := "Fraser Health";
                    Facility_Name := "Alpha Hospital";
                    Location_City := "Burnaby";
                    Latitude := None; Longitude := None;
                    Hospital_Page_URL := Some "https://en.wikipedia.org/wiki/Alpha";
                    Beds_Raw := None; Beds := None;
                    Beds_Source_URL := None |} in
        let known := fst (@worker Demo.lib (serve 200 "<unknown beds>") d) in
        let bare := fst (@worker Demo.lib (serve 200 "<no table>") d) in
        Beds_Raw known = Some "unknown" /\ Beds known = None
        /\ Beds_Source_URL known = Some "https://en.wikipedia.org/wiki/Alpha"
        /\ Beds_Raw bare = None /\ Beds_Source_URL bare = None).
Proof.
  intros E get r r'. subst r'. rewrite worker_result.
  split; [|split; [|split]].
  - destruct (truthy_str (Hospital_Page_URL r)) eqn:Hu.
    + destruct (fst (page_of get r)) as [[[br bi] la] lo]. simpl.
      destruct (truthy_str br) eqn:Hbr.
      * destruct (Hospital_Page_URL r); [|discriminate Hu].
        split; [reflexivity | discriminate].
      * split; [intros H; now elim H | discriminate].
    + rewrite (page_of_beds_need_url get r Hu). simpl.
      split; [intros H; now elim H | discriminate].
  - destruct (fst (page_of get r)) as [[[br bi] la] lo]. simpl.
    intros ->. reflexivity.
  - intros u Hu Hf. rewrite (page_of_failed_fetch get r u Hu Hf). simpl.
    split; reflexivity.
  - vm_compute. repeat split.
Qed.

Lemma beds_source_iff_nonempty_raw_witness :
  let get := serve 404 "" in
  let u := "https://en.wikipedia.org/wiki/Zero" in
  let r := zero_clinic (Some u) in
  Hospital_Page_URL r = Some u
  /\ fst (_fetch get u) = None
  /\ Beds_Raw (fst (@worker Demo.lib get r)) = None
  /\ Beds_Source_URL (fst (@worker Demo.lib get r)) = None.
Proof.
  intros get u r. split; [reflexivity|]. split; [reflexivity|].
  apply (proj1 (proj2 (proj2 (beds_source_iff_nonempty_raw Demo.lib get r)))
           u eq_refl eq_refl).
Defined.

(** ** The run *)

Example format_thousands_1234 : PyStr.format_thousands 1234 = "1,234".
Proof. reflexivity. Qed.






(** ** Capacity extraction *)

Lemma take_digits_leading (n : nat) :
  forall s, PyStr.take_digits n s = String.substring 0 n (leading_digits s).
Proof.
  induction n as [|n IH]; intros s.
  - destruct s as [|c r]; simpl; [reflexivity|].
    destruct (PyStr.is_digit c); reflexivity.
  - destruct s as [|c r]; simpl; [reflexivity|].
    destruct (PyStr.is_digit c); simpl; [now rewrite IH | reflexivity].
Qed.

Lemma int_digits_take (n : nat) :
  forall s acc,
    PyStr.int_digits acc (PyStr.take_digits n s)
    = Some (acc * 10 ^ Z.of_nat (String.length (PyStr.take_digits n s))
            + decimal_value (PyStr.take_digits n s))%Z.
Proof.
  induction n as [|n IH]; intros s acc.
  - destruct s; simpl; f_equal; lia.
  - destruct s as [|c r]; [simpl; f_equal; lia|].
    cbn [PyStr.take_digits].
    destruct (PyStr.is_digit c) eqn:Hc; [|simpl; f_equal; lia].
    cbn [PyStr.int_digits]. rewrite Hc, IH.
    cbn [String.length decimal_value]. unfold digit_value.
    rewrite Nat2Z.inj_succ, Z.pow_succ_r by lia. f_equal. ring.
Qed.

Lemma search_then_int (s : string) :
  match PyStr.search_digits s with
  | Some g => PyStr.int g
  | None => None
  end = first_digit_run s.
Proof.
  induction s as [|c r IH]; [reflexivity|].
  unfold first_digit_run in *. cbn [PyStr.search_digits drop_non_digits].
  destruct (PyStr.is_digit c) eqn:Hc; [|exact IH].
  pose proof (int_digits_take 4 (String c r) 0) as H.
  cbn [leading_digits]. rewrite Hc.
  cbn [PyStr.take_digits] in *. rewrite Hc in *.
  unfold PyStr.int. rewrite H.
  cbn [String.substring]. rewrite <- (take_digits_leading 3 r).
  reflexivity.
Qed.

Lemma scan_is_stated (trs : list node) :
  scan_infobox_rows trs = stated_capacity trs.
Proof.
  unfold stated_capacity.
  induction trs as [|tr rest IH]; [reflexivity|].
  cbn [scan_infobox_rows find]. unfold capacity_row at 1.
  destruct (Soup.select_one (Soup.named "th") tr) as [th|] eqn:Hth;
    [|exact IH].
  destruct (Soup.select_one (Soup.named "td") tr) as [td|] eqn:Htd;
    [|exact IH].
  destruct (PyStr.startswith _ "beds"); [|exact IH].
  rewrite Htd. now rewrite search_then_int.
Qed.

(** ** Order on texts *)

Lemma ascii_compare_refl (a : ascii) : Ascii.compare a a = Eq.
Proof. unfold Ascii.compare. apply N.compare_refl. Qed.

Lemma string_compare_refl (s : string) : String.compare s s = Eq.
Proof.
  induction s as [|c s IH]; simpl; [reflexivity|].
  now rewrite ascii_compare_refl.
Qed.

Lemma string_compare_eq (a b : string) : String.compare a b = Eq <-> a = b.
Proof.
  split; [apply String.compare_eq_iff | intros ->; apply string_compare_refl].
Qed.

Lemma string_compare_lt_trans (a : string) :
  forall b c, String.compare a b = Lt -> String.compare b c = Lt ->
              String.compare a c = Lt.
Proof.
  induction a as [|x a IH]; intros [|y b] [|z c]; simpl;
    try discriminate; try reflexivity.
  destruct (Ascii.compare x y) eqn:Hxy; try discriminate;
    destruct (Ascii.compare y z) eqn:Hyz; try discriminate.
  - apply Ascii.compare_eq_iff in Hxy, Hyz. subst.
    rewrite ascii_compare_refl. apply IH.
  - apply Ascii.compare_eq_iff in Hxy. subst. rewrite Hyz. reflexivity.
  - apply Ascii.compare_eq_iff in Hyz. subst. rewrite Hxy. reflexivity.
  - unfold Ascii.compare in *. rewrite N.compare_lt_iff in Hxy, Hyz.
    assert (H : (N_of_ascii x ?= N_of_ascii z)%N = Lt)
      by (apply N.compare_lt_iff; lia).
    rewrite H. reflexivity.
Qed.

Lemma string_leb_cases (a b : string) :
  String.leb a b = true <-> String.compare a b = Lt \/ a = b.
Proof.
  unfold String.leb. destruct (String.compare a b) eqn:H.
  - apply string_compare_eq in H. split; auto.
  - split; auto.
  - split; [discriminate|]. intros [H'| ->]; [discriminate|].
    rewrite string_compare_refl in H. discriminate.
Qed.

Lemma string_leb_trans (a b c : string) :
  String.leb a b = true -> String.leb b c = true -> String.leb a c = true.
Proof.
  rewrite !string_leb_cases. intros [Hab| ->] [Hbc| ->]; auto.
  left. eapply string_compare_lt_trans; eassumption.
Qed.

Lemma string_lt_not_gt (a b : string) :
  String.compare a b = Lt -> String.compare b a = Lt -> False.
Proof.
  intros H1 H2. rewrite String.compare_antisym, H2 in H1. discriminate.
Qed.

(** ** Order on rows *)

Lemma sort_leb_lex (a b : rec) : sort_leb a b = true <-> lex_le a b.
Proof.
  unfold sort_leb, lex_le.
  destruct (String.compare (Health_Authority a) (Health_Authority b)) eqn:H.
  - apply string_compare_eq in H. split.
    + intros Hl. right. split; assumption.
    + intros [Hlt|[_ Hl]]; [discriminate | exact Hl].
  - split; auto.
  - split; [discriminate|]. intros [Hlt|[He _]]; [discriminate|].
    rewrite He, string_compare_refl in H. discriminate.
Qed.

Lemma lex_le_total (a b : rec) : lex_le a b \/ lex_le b a.
Proof.
  unfold lex_le.
  destruct (String.compare (Health_Authority a) (Health_Authority b)) eqn:H.
  - apply string_compare_eq in H.
    destruct (String.leb_total (Facility_Name a) (Facility_Name b)) as [Hl|Hl].
    + left. right. split; assumption.
    + right. right. split; [symmetry|]; assumption.
  - left. left. reflexivity.
  - right. left. rewrite String.compare_antisym, H. reflexivity.
Qed.

Lemma lex_le_trans (a b c : rec) : lex_le a b -> lex_le b c -> lex_le a c.
Proof.
  unfold lex_le. intros [Hab|[Eab Lab]] [Hbc|[Ebc Lbc]].
  - left. eapply string_compare_lt_trans; eassumption.
  - left. rewrite <- Ebc. exact Hab.
  - left. rewrite Eab. exact Hbc.
  - right. split; [congruence|]. eapply string_leb_trans; eassumption.
Qed.

Lemma lex_le_antisym (a b : rec) :
  lex_le a b -> lex_le b a -> sort_key a = sort_key b.
Proof.
  unfold lex_le, sort_key. intros [Hab|[Eab Lab]] [Hba|[Eba Lba]].
  - destruct (string_lt_not_gt _ _ Hab Hba).
  - rewrite Eba, string_compare_refl in Hab. discriminate.
  - rewrite Eab, string_compare_refl in Hba. discriminate.
  - f_equal; [exact Eab|]. apply String.leb_antisym; assumption.
Qed.

Lemma has_sort_key_iff (k : string * string) (r : rec) :
  has_sort_key k r = true <-> k = sort_key r.
Proof.
  unfold has_sort_key, sort_key. destruct k as [s n]. simpl.
  rewrite andb_true_iff, !String.eqb_eq. split.
  - intros [-> ->]. reflexivity.
  - intros [= -> ->]. split; reflexivity.
Qed.

Lemma same_name_city_iff (a b : rec) :
  same_name_city a b = true <-> name_city a = name_city b.
Proof.
  unfold same_name_city, name_city.
  rewrite andb_true_iff, !String.eqb_eq. split.
  - intros [-> ->]. reflexivity.
  - intros [= -> ->]. split; reflexivity.
Qed.

Lemma same_name_city_refl (a : rec) : same_name_city a a = true.
Proof. apply same_name_city_iff. reflexivity. Qed.

(** ** De-duplication *)

Lemma existsb_same_key (a b : rec) (seen : list rec) :
  same_name_city a b = true ->
  existsb (same_name_city a) seen = existsb (same_name_city b) seen.
Proof.
  intros Hab. apply same_name_city_iff in Hab.
  induction seen as [|x seen IH]; simpl; [reflexivity|].
  rewrite IH. f_equal.
  unfold same_name_city, name_city in *. injection Hab as -> ->. reflexivity.
Qed.

Lemma drop_duplicates_from_in (rows : list rec) :
  forall seen r,
    In r (drop_duplicates_from seen rows) ->
    In r rows /\ existsb (same_name_city r) seen = false.
Proof.
  induction rows as [|x rows IH]; intros seen r Hin; [destruct Hin|].
  simpl in Hin. destruct (existsb (same_name_city x) seen) eqn:Hx.
  - destruct (IH _ _ Hin) as [H1 H2]. split; [right|]; assumption.
  - destruct Hin as [<-|Hin].
    + split; [left; reflexivity | exact Hx].
    + destruct (IH _ _ Hin) as [H1 H2]. split; [right; exact H1|].
      simpl in H2. apply orb_false_iff in H2. apply H2.
Qed.

Lemma drop_duplicates_from_nodup (rows : list rec) :
  forall seen, NoDup (map name_city (drop_duplicates_from seen rows)).
Proof.
  induction rows as [|x rows IH]; intros seen; simpl; [constructor|].
  destruct (existsb (same_name_city x) seen); [apply IH|].
  simpl. constructor; [|apply IH].
  intros Hin. apply in_map_iff in Hin. destruct Hin as [y [Hk Hy]].
  apply drop_duplicates_from_in in Hy. destruct Hy as [_ Hy].
  simpl in Hy. apply orb_false_iff in Hy. destruct Hy as [Hy _].
  apply same_name_city_iff in Hk. congruence.
Qed.

Lemma drop_duplicates_from_first (rows : list rec) :
  forall seen r,
    In r (drop_duplicates_from seen rows) ->
    find (same_name_city r) rows = Some r.
Proof.
  induction rows as [|x rows IH]; intros seen r Hin; [destruct Hin|].
  simpl in Hin. cbn [find].
  destruct (existsb (same_name_city x) seen) eqn:Hx.
  - destruct (same_name_city r x) eqn:Hrx.
    + apply drop_duplicates_from_in in Hin. destruct Hin as [_ Hr].
      rewrite (existsb_same_key r x seen Hrx) in Hr. congruence.
    + eapply IH. exact Hin.
  - destruct Hin as [<-|Hin].
    + now rewrite same_name_city_refl.
    + pose proof (drop_duplicates_from_in _ _ _ Hin) as [_ Hr].
      simpl in Hr. apply orb_false_iff in Hr. destruct Hr as [Hrx _].
      rewrite Hrx. eapply IH. exact Hin.
Qed.

Lemma drop_duplicates_from_covers (rows : list rec) :
  forall seen r,
    In r rows ->
    existsb (same_name_city r) seen = true
    \/ exists r', In r' (drop_duplicates_from seen rows)
                  /\ same_name_city r r' = true.
Proof.
  induction rows as [|x rows IH]; intros seen r Hin; [destruct Hin|].
  simpl. destruct Hin as [<-|Hin].
  - destruct (existsb (same_name_city x) seen) eqn:Hx; [left; reflexivity|].
    right. exists x. split; [left; reflexivity | apply same_name_city_refl].
  - destruct (existsb (same_name_city x) seen) eqn:Hx.
    + apply IH. exact Hin.
    + destruct (IH (x :: seen) r Hin) as [Hs|[r' [H1 H2]]].
      * simpl in Hs. apply orb_true_iff in Hs. destruct Hs as [Hs|Hs].
        -- right. exists x. split; [left; reflexivity | exact Hs].
        -- left. exact Hs.
      * right. exists r'. split; [right; exact H1 | exact H2].
Qed.

(** ** Sorting *)

Lemma sort_insert_perm (r : rec) (l : list rec) :
  Permutation (sort_insert r l) (r :: l).
Proof.
  induction l as [|x l IH]; simpl; [reflexivity|].
  destruct (sort_leb r x); [reflexivity|].
  rewrite IH. apply perm_swap.
Qed.

Lemma sort_values_perm (l : list rec) : Permutation (sort_values l) l.
Proof.
  induction l as [|x l IH]; simpl; [reflexivity|].
  rewrite sort_insert_perm. now constructor.
Qed.

Lemma sort_insert_sorted (r : rec) (l : list rec) :
  StronglySorted lex_le l -> StronglySorted lex_le (sort_insert r l).
Proof.
  induction l as [|x l IH]; intros Hs; simpl.
  - constructor; constructor.
  - inversion Hs as [|? ? Hl Hx]; subst.
    destruct (sort_leb r x) eqn:Hrx.
    + apply sort_leb_lex in Hrx. constructor; [exact Hs|].
      constructor; [exact Hrx|].
      eapply Forall_impl; [|exact Hx].
      intros y Hy. eapply lex_le_trans; eassumption.
    + assert (Hxr : lex_le x r).
      { destruct (lex_le_total x r) as [H|H]; [exact H|].
        apply sort_leb_lex in H. congruence. }
      constructor; [apply IH; exact Hl|].
      rewrite Forall_forall in *. intros y Hy.
      apply (Permutation_in _ (sort_insert_perm r l)) in Hy.
      destruct Hy as [<-|Hy]; [exact Hxr | apply Hx; exact Hy].
Qed.

Lemma sort_values_sorted (l : list rec) : StronglySorted lex_le (sort_values l).
Proof.
  induction l as [|x l IH]; simpl; [constructor|].
  apply sort_insert_sorted. exact IH.
Qed.

Lemma sort_insert_filter (k : string * string) (r : rec) (l : list rec) :
  filter (has_sort_key k) (sort_insert r l)
  = filter (has_sort_key k) (r :: l).
Proof.
  induction l as [|x l IH]; [reflexivity|].
  cbn [sort_insert]. destruct (sort_leb r x) eqn:Hrx; [reflexivity|].
  cbn [filter] in *. rewrite IH.
  destruct (has_sort_key k r) eqn:Hr; [|reflexivity].
  destruct (has_sort_key k x) eqn:Hx; [|reflexivity].
  apply has_sort_key_iff in Hr, Hx.
  assert (Hle : sort_leb r x = true).
  { apply sort_leb_lex. right. unfold sort_key in *.
    assert (He : (Health_Authority r, Facility_Name r)
                 = (Health_Authority x, Facility_Name x)) by congruence.
    injection He as H1 H2. split; [exact H1|].
    rewrite H2. apply string_leb_cases. right. reflexivity. }
  congruence.
Qed.

Lemma sort_values_stable (k : string * string) (l : list rec) :
  filter (has_sort_key k) (sort_values l) = filter (has_sort_key k) l.
Proof.
  induction l as [|x l IH]; [reflexivity|].
  cbn [sort_values]. rewrite sort_insert_filter.
  cbn [filter]. now rewrite IH.
Qed.

(** Two sorted arrangements of the same rows are equal when the sort key
    identifies the row. *)
Lemma sorted_arrangement_unique (l1 : list rec) :
  forall l2,
    StronglySorted lex_le l1 -> StronglySorted lex_le l2 ->
    Permutation l1 l2 ->
    (forall a b, In a l1 -> In b l1 -> sort_key a = sort_key b -> a = b) ->
    l1 = l2.
Proof.
  induction l1 as [|a l1 IH]; intros l2 S1 S2 P Hinj.
  - apply Permutation_nil in P. now subst.
  - destruct l2 as [|b l2].
    + apply Permutation_sym, Permutation_nil in P. discriminate.
    + inversion S1 as [|? ? S1' F1]; subst.
      inversion S2 as [|? ? S2' F2]; subst.
      rewrite Forall_forall in F1, F2.
      assert (Hab : a = b).
      { assert (Ha : In a (b :: l2))
          by (eapply Permutation_in; [exact P | left; reflexivity]).
        assert (Hb : In b (a :: l1))
          by (eapply Permutation_in;
              [apply Permutation_sym; exact P | left; reflexivity]).
        destruct Ha as [Ha|Ha]; [now subst|].
        destruct Hb as [Hb|Hb]; [now subst|].
        apply Hinj; [left; reflexivity | right; exact Hb|].
        apply lex_le_antisym; [apply F1; exact Hb | apply F2; exact Ha]. }
      subst b. f_equal. apply IH; try assumption.
      * eapply Permutation_cons_inv. exact P.
      * intros x y Hx Hy. apply Hinj; right; assumption.
Qed.

Lemma drop_duplicates_in_iff (rows : list rec) :
  keys_identify rows ->
  forall r, In r (drop_duplicates rows) <-> In r rows.
Proof.
  intros Hk r. unfold drop_duplicates. split.
  - intros H. apply drop_duplicates_from_in in H. apply H.
  - intros H.
    destruct (drop_duplicates_from_covers rows [] r H) as [Hs|[r' [H1 H2]]];
      [discriminate|].
    assert (r = r'); [|now subst].
    apply Hk; [exact H | |].
    + apply drop_duplicates_from_in in H1. apply H1.
    + left. apply same_name_city_iff. exact H2.
Qed.

Lemma drop_duplicates_nodup (rows : list rec) : NoDup (drop_duplicates rows).
Proof.
  eapply NoDup_map_inv. apply drop_duplicates_from_nodup.
Qed.

Lemma assemble_permutation_invariant (rows rows' : list rec) :
  keys_identify rows -> Permutation rows rows' ->
  assemble rows' = assemble rows.
Proof.
  intros Hk P. unfold assemble.
  assert (Hk' : keys_identify rows').
  { intros a b Ha Hb. apply Hk; eapply Permutation_in;
      try (apply Permutation_sym; exact P); assumption. }
  apply sorted_arrangement_unique.
  - apply sort_values_sorted.
  - apply sort_values_sorted.
  - rewrite !sort_values_perm.
    apply NoDup_Permutation; try apply drop_duplicates_nodup.
    intros x. rewrite (drop_duplicates_in_iff rows' Hk').
    rewrite (drop_duplicates_in_iff rows Hk).
    split; apply Permutation_in; [apply Permutation_sym|]; exact P.
  - intros a b Ha Hb Hab.
    apply (Permutation_in _ (sort_values_perm _)) in Ha, Hb.
    apply (drop_duplicates_in_iff rows' Hk') in Ha, Hb.
    apply Hk'; [exact Ha | exact Hb | right; exact Hab].
Qed.

(** ** The assembled frame *)

(** C4: the assembled frame has no two rows with the same (name, city)
    pair; every row of the frame is the first row of the input with its
    (name, city) pair, with all its field values; every (name, city) pair
    of the input is present in the frame; and the comparison is exact:
    two names that differ only in the case of their letters are two
    rows. *)
Theorem assemble_keeps_first_of_each_name_city :
  forall rows : list rec,
    NoDup (map name_city (assemble rows))
    /\ (forall r, In r (assemble rows)
                  -> find (same_name_city r) rows = Some r)
    /\ (forall r, In r rows
                  -> exists r', In r' (assemble rows)
                                /\ name_city r' = name_city r)
    /\ List.length
         (assemble [ plain_rec "Fraser Health" "Alpha Hospital" "Burnaby";
                     plain_rec "Fraser Health" "alpha hospital" "Burnaby" ])
       = 2%nat.
Proof.
  intros rows. unfold assemble. split; [|split; [|split]].
  - eapply Permutation_NoDup.
    + apply Permutation_map, Permutation_sym, sort_values_perm.
    + apply drop_duplicates_from_nodup.
  - intros r Hr.
    apply (Permutation_in _ (sort_values_perm _)) in Hr.
    eapply drop_duplicates_from_first. exact Hr.
  - intros r Hr.
    destruct (drop_duplicates_from_covers rows [] r Hr) as [Hs|[r' [H1 H2]]];
      [discriminate|].
    exists r'. split.
    + eapply Permutation_in; [apply Permutation_sym, sort_values_perm|].
      exact H1.
    + symmetry. apply same_name_city_iff. exact H2.
  - reflexivity.
Qed.

Lemma assemble_keeps_first_of_each_name_city_witness :
  let first := plain_rec "Fraser Health" "Alpha Hospital" "Burnaby" in
  let second := plain_rec "Interior Health" "Alpha Hospital" "Burnaby" in
  In first (assemble [first; second])
  /\ find (same_name_city first) [first; second] = Some first
  /\ assemble [first; second] = [first].
Proof.
  intros first second.
  assert (Hin : In first (assemble [first; second]))
    by (left; reflexivity).
  split; [exact Hin|]. split; [|reflexivity].
  apply (proj1 (proj2 (assemble_keeps_first_of_each_name_city
                         [first; second])) first Hin).
Defined.

(** C3, as stated, fails: two records of one section with the same name
    and different cities are written in the order in which they come, so
    the two orders of this input give two different files. *)
Lemma permuted_input_changes_output :
  let a := plain_rec "Fraser Health" "Alpha Hospital" "Burnaby" in
  let b := plain_rec "Fraser Health" "Alpha Hospital" "Surrey" in
  Permutation [a; b] [b; a]
  /\ assemble [a; b] = [a; b]
  /\ assemble [b; a] = [b; a]
  /\ @to_csv Demo.lib (assemble [a; b]) <> @to_csv Demo.lib (assemble [b; a]).
Proof.
  intros a b. split; [apply perm_swap|].
  split; [reflexivity|]. split; [reflexivity|].
  intros H. apply String.eqb_eq in H. vm_compute in H. discriminate H.
Qed.

(** C3, as amended: the rows of the assembled frame are in ascending
    lexicographic order of (section, name); the sort is stable, the rows
    with one sort key keeping the order they have after de-duplication;
    and when no two different records of the input share a (name, city)
    pair or a (section, name) pair, every permutation of the input gives
    the same frame and so the same serialized bytes. *)
Theorem assemble_sorted_stable :
  forall (E : Extern) (rows : list rec),
    StronglySorted lex_le (assemble rows)
    /\ (forall k, filter (has_sort_key k) (assemble rows)
                  = filter (has_sort_key k) (drop_duplicates rows))
    /\ (forall rows',
          keys_identify rows ->
          Permutation rows rows' ->
          assemble rows' = assemble rows
          /\ to_csv (assemble rows') = to_csv (assemble rows)).
Proof.
  intros E rows.
  split; [apply sort_values_sorted|].
  split; [intros k; apply sort_values_stable|].
  intros rows' Hk P.
  pose proof (assemble_permutation_invariant rows rows' Hk P) as H.
  split; [exact H | now rewrite H].
Qed.

Lemma assemble_sorted_stable_witness :
  let a := plain_rec "Interior Health" "Omega Hospital" "Kelowna" in
  let b := plain_rec "Fraser Health" "Zero Clinic" "Surrey" in
  let c := plain_rec "Fraser Health" "Alpha Hospital" "Burnaby" in
  keys_identify [a; b; c]
  /\ Permutation [a; b; c] [c; a; b]
  /\ assemble [a; b; c] = [c; b; a]
  /\ @to_csv Demo.lib (assemble [c; a; b])
     = @to_csv Demo.lib (assemble [a; b; c]).
Proof.
  intros a b c.
  assert (Hk : keys_identify [a; b; c]).
  { intros x y Hx Hy Hxy. simpl in Hx, Hy.
    destruct Hx as [<-|[<-|[<-|[]]]]; destruct Hy as [<-|[<-|[<-|[]]]];
      try reflexivity; destruct Hxy as [H|H]; discriminate H. }
  assert (P : Permutation [a; b; c] [c; a; b]).
  { apply Permutation_sym.
    change [c; a; b] with ([c] ++ [a; b]). change [a; b; c] with ([a; b] ++ [c]).
    apply Permutation_app_comm. }
  split; [exact Hk|]. split; [exact P|]. split; [reflexivity|].
  apply (proj2 (proj2 (assemble_sorted_stable Demo.lib [a; b; c]))
           [c; a; b] Hk P).
Defined.

(** ** Tokens of the geotag *)

Lemma tokens_nonempty (sep : ascii -> bool) (s : string) :
  starts_token sep s = true -> tokens sep s <> [].
Proof.
  destruct s as [|c r]; simpl; [discriminate|].
  intros H. apply negb_true_iff in H. rewrite H.
  destruct (starts_token sep r); [|discriminate].
  destruct (tokens sep r); discriminate.
Qed.

Lemma tokens_cons (sep : ascii -> bool) (c : ascii) (r : string) :
  tokens sep (String c r)
  = if sep c then tokens sep r
    else if starts_token sep r
         then match tokens sep r with
              | t :: ts => String c t :: ts
              | [] => [String c EmptyString]
              end
         else String c EmptyString :: tokens sep r.
Proof. reflexivity. Qed.

Lemma nonempty_app_char (cur : string) (c : ascii) :
  PyStr.nonempty (cur ++ String c EmptyString) = true.
Proof. destruct cur; reflexivity. Qed.

(** The non-empty pieces of the split are the tokens. *)
Lemma split_from_tokens (s : string) :
  forall cur b,
    (b = true -> cur = EmptyString) ->
    filter PyStr.nonempty (PyStr.split_from cur b s)
    = if starts_token PyStr.is_sep s
      then match tokens PyStr.is_sep s with
           | t :: ts => (cur ++ t)%string :: ts
           | [] => []
           end
      else (if PyStr.nonempty cur then [cur] else [])
             ++ tokens PyStr.is_sep s.
Proof.
  induction s as [|c r IH]; intros cur b Hb.
  - simpl. destruct (PyStr.nonempty cur); reflexivity.
  - cbn [PyStr.split_from starts_token tokens].
    destruct (PyStr.is_sep c) eqn:Hc; cbn [negb].
    + assert (Hrun : filter PyStr.nonempty
                       (PyStr.split_from EmptyString true r)
                     = tokens PyStr.is_sep r).
      { rewrite (IH EmptyString true (fun _ => eq_refl)).
        destruct (starts_token PyStr.is_sep r) eqn:Hr; [|reflexivity].
        pose proof (tokens_nonempty _ _ Hr).
        destruct (tokens PyStr.is_sep r); [contradiction | reflexivity]. }
      destruct b.
      * rewrite (Hb eq_refl). exact Hrun.
      * cbn [filter]. rewrite Hrun.
        destruct (PyStr.nonempty cur); reflexivity.
    + rewrite (IH _ false) by discriminate.
      destruct (starts_token PyStr.is_sep r) eqn:Hr.
      * pose proof (tokens_nonempty _ _ Hr).
        destruct (tokens PyStr.is_sep r) as [|t ts]; [contradiction|].
        rewrite string_app_assoc. reflexivity.
      * rewrite nonempty_app_char. reflexivity.
Qed.

Lemma re_split_tokens (s : string) :
  filter PyStr.nonempty (PyStr.re_split_seps s) = tokens PyStr.is_sep s.
Proof.
  unfold PyStr.re_split_seps.
  rewrite (split_from_tokens s EmptyString false) by discriminate.
  destruct (starts_token PyStr.is_sep s) eqn:Hs; [|reflexivity].
  pose proof (tokens_nonempty _ _ Hs).
  destruct (tokens PyStr.is_sep s); [contradiction | reflexivity].
Qed.

Lemma tokens_lstrip (sep : ascii -> bool) (t : string) :
  (forall c, In c (list_ascii_of_string t) ->
             PyStr.is_space c = true -> sep c = true) ->
  tokens sep (PyStr.lstrip t) = tokens sep t.
Proof.
  induction t as [|c r IH]; intros H; [reflexivity|].
  cbn [PyStr.lstrip]. destruct (PyStr.is_space c) eqn:Hc; [|reflexivity].
  cbn [tokens]. rewrite (H c (or_introl eq_refl) Hc).
  apply IH. intros x Hx. apply H. right. exact Hx.
Qed.

Lemma rstrip_head (r : string) (c : ascii) (r' : string) :
  PyStr.rstrip r = String c r' -> exists r0, r = String c r0.
Proof.
  destruct r as [|x r0]; simpl; [discriminate|].
  destruct (PyStr.rstrip r0).
  - destruct (PyStr.is_space x); [discriminate|].
    intros [= -> _]. eexists. reflexivity.
  - intros [= -> _]. eexists. reflexivity.
Qed.

Lemma tokens_rstrip (sep : ascii -> bool) (t : string) :
  (forall c, In c (list_ascii_of_string t) ->
             PyStr.is_space c = true -> sep c = true) ->
  tokens sep (PyStr.rstrip t) = tokens sep t.
Proof.
  induction t as [|c r IH]; intros H; [reflexivity|].
  assert (IH' : tokens sep (PyStr.rstrip r) = tokens sep r).
  { apply IH. intros x Hx. apply H. right. exact Hx. }
  cbn [PyStr.rstrip].
  destruct (PyStr.rstrip r) as [|c' r'] eqn:Hr.
  - simpl in IH'.
    destruct (PyStr.is_space c) eqn:Hc.
    + cbn [tokens]. rewrite (H c (or_introl eq_refl) Hc). exact IH'.
    + cbn [tokens starts_token]. destruct (sep c); [exact IH'|].
      rewrite <- IH'. destruct (starts_token sep r); reflexivity.
  - destruct (rstrip_head _ _ _ Hr) as [r0 ->].
    rewrite (tokens_cons sep c (String c' r')),
            (tokens_cons sep c (String c' r0)), IH'.
    reflexivity.
Qed.

Lemma sub_ws_spaces (s : string) :
  forall b c,
    In c (list_ascii_of_string (PyStr.sub_ws_from b s)) ->
    PyStr.is_space c = true -> c = " "%char.
Proof.
  induction s as [|x r IH]; intros b c Hin Hc; [destruct Hin|].
  cbn [PyStr.sub_ws_from] in Hin. destruct (PyStr.is_space x) eqn:Hx.
  - destruct b.
    + eapply IH; eassumption.
    + destruct Hin as [<-|Hin]; [reflexivity | eapply IH; eassumption].
  - destruct Hin as [<-|Hin]; [congruence | eapply IH; eassumption].
Qed.

Lemma is_sep_geo_sep (c : ascii) :
  PyStr.is_space c = false -> PyStr.is_sep c = geo_sep c.
Proof.
  intros Hc. unfold PyStr.is_sep, geo_sep. rewrite Hc.
  destruct (Ascii.eqb_spec c " ") as [->|_]; [discriminate Hc|].
  now rewrite orb_false_r.
Qed.

Lemma geo_sep_space (c : ascii) : PyStr.is_space c = true -> geo_sep c = true.
Proof. intros Hc. unfold geo_sep. now rewrite Hc. Qed.

Lemma starts_token_sub_ws (r : string) :
  starts_token PyStr.is_sep (PyStr.sub_ws_from false r)
  = starts_token geo_sep r.
Proof.
  destruct r as [|c r]; [reflexivity|].
  cbn [PyStr.sub_ws_from]. destruct (PyStr.is_space c) eqn:Hc.
  - cbn [starts_token]. now rewrite (geo_sep_space c Hc).
  - cbn [starts_token]. now rewrite (is_sep_geo_sep c Hc).
Qed.

Lemma tokens_sub_ws (s : string) :
  forall b, tokens PyStr.is_sep (PyStr.sub_ws_from b s) = tokens geo_sep s.
Proof.
  induction s as [|c r IH]; intros b; [reflexivity|].
  cbn [PyStr.sub_ws_from]. destruct (PyStr.is_space c) eqn:Hc.
  - cbn [tokens]. rewrite (geo_sep_space c Hc).
    destruct b; [apply IH|]. cbn [tokens]. apply IH.
  - cbn [tokens]. rewrite (is_sep_geo_sep c Hc), starts_token_sub_ws, IH.
    reflexivity.
Qed.

Lemma lstrip_in (t : string) (c : ascii) :
  In c (list_ascii_of_string (PyStr.lstrip t)) ->
  In c (list_ascii_of_string t).
Proof.
  induction t as [|x t IH]; [intros []|].
  cbn [PyStr.lstrip]. destruct (PyStr.is_space x); [|exact (fun H => H)].
  intros H. right. apply IH. exact H.
Qed.

(** Splitting the cleaned text on [[;, ]+] is splitting the text on [;],
    [,] and whitespace. *)
Lemma geotag_parts (s : string) :
  filter PyStr.nonempty (PyStr.re_split_seps (_clean_text s))
  = tokens geo_sep s.
Proof.
  rewrite re_split_tokens. unfold _clean_text, PyStr.strip, PyStr.sub_ws.
  assert (H : forall c,
             In c (list_ascii_of_string (PyStr.sub_ws_from false s)) ->
             PyStr.is_space c = true -> PyStr.is_sep c = true).
  { intros c Hin Hc. now rewrite (sub_ws_spaces s false c Hin Hc). }
  rewrite tokens_rstrip.
  - rewrite tokens_lstrip by exact H. apply tokens_sub_ws.
  - intros c Hin Hc. apply H; [apply lstrip_in; exact Hin | exact Hc].
Qed.

(** ** Coordinate extraction *)

(** C8, as stated, fails: the geotag text "N 49.25 -123.125" has the
    tokens "N", "49.25", "-123.125", of which the first two that are
    numbers are 49.25 and -123.125; the extractor reads the first two
    tokens, "N" is no number, and the geotag gives nothing. *)
Lemma geotag_takes_first_two_tokens :
  tokens geo_sep "N 49.25 -123.125" = ["N"; "49.25"; "-123.125"]
  /\ @geotag_numeric_tokens Demo.lib Demo.labelled_geotag
     = Some (49.25%float, (-123.125)%float)
  /\ @extract_coords_from_node Demo.lib Demo.labelled_geotag = (None, None).
Proof. repeat split; vm_compute; reflexivity. Qed.

(** C8, as amended: the extractor returns the pair of the first of three
    strategies that succeeds, and (absent, absent) when none does.  The
    strategies, in order: the geotag, whose text is split on [;], [,] and
    whitespace and whose first two tokens must both be numbers; the
    separate latitude and longitude elements, which must both be numbers;
    the data attributes of the map link, which must both be numbers.  A
    strategy that fails leaves the decision to the next.  When a geotag
    and a map link disagree the geotag wins; when the geotag has a token
    that is no number the map link decides. *)
Theorem extract_coords_first_success :
  forall (E : Extern) (n : node),
    extract_coords_from_node n
    = first_success [geotag_strategy; latlon_strategy; maplink_strategy] n
    /\ @extract_coords_from_node Demo.lib Demo.geotag_and_maplink
       = (Some 49.25%float, Some (-123.5)%float)
    /\ @extract_coords_from_node Demo.lib Demo.broken_geotag_and_maplink
       = (Some 10.5%float, Some 20.25%float).
Proof.
  intros E n. split; [|split; vm_compute; reflexivity].
  unfold extract_coords_from_node, first_success,
    geotag_strategy, latlon_strategy, maplink_strategy, parse_pair.
  destruct (Soup.select_one (Soup.has_class "geo") n) as [geo|].
  - rewrite geotag_parts.
    destruct (tokens geo_sep (Soup.get_text " " geo)) as [|t0 [|t1 ts]].
    all: repeat match goal with
           | |- context [match ?x with _ => _ end] => destruct x
           end; reflexivity.
  - repeat match goal with
           | |- context [match ?x with _ => _ end] => destruct x
           end; reflexivity.
Qed.

(** * Further properties *)

(** ** Documents *)

Lemma node_forall_ind (P : node -> Prop) :
  (forall s, P (NavigableString s)) ->
  (forall nm cls ats cs, Forall P cs -> P (Tag nm cls ats cs)) ->
  forall n, P n.
Proof.
  intros Hs Ht. fix IH 1. intros [s|nm cls ats cs].
  - apply Hs.
  - apply Ht. induction cs as [|c cs IHcs]; constructor.
    + apply IH.
    + exact IHcs.
Qed.

Lemma descendants_child (nm : string) (cls : list string)
  (ats : list (string * string)) (cs : list node) (e : node) :
  In e (Soup.descendants (Tag nm cls ats cs))
  <-> exists c, In c cs
                /\ match c with
                   | NavigableString _ => False
                   | Tag _ _ _ _ => e = c \/ In e (Soup.descendants c)
                   end.
Proof.
  cbn [Soup.descendants]. rewrite in_flat_map. split.
  - intros [c [Hc He]]. exists c. split; [exact Hc|].
    destruct c as [s|n1 c1 a1 k1]; [destruct He|].
    destruct He as [<-|He]; [left; reflexivity | right; exact He].
  - intros [c [Hc He]]. exists c. split; [exact Hc|].
    destruct c as [s|n1 c1 a1 k1]; [destruct He|].
    destruct He as [->|He]; [left; reflexivity | right; exact He].
Qed.

Lemma descendants_trans (c : node) :
  forall a b, In a (Soup.descendants b) -> In b (Soup.descendants c) ->
              In a (Soup.descendants c).
Proof.
  induction c as [s|nm cls ats cs IH] using node_forall_ind;
    intros a b Ha Hb; [destruct Hb|].
  apply descendants_child in Hb. destruct Hb as [ch [Hch Hb]].
  apply descendants_child. exists ch. split; [exact Hch|].
  destruct ch as [s|n1 c1 a1 k1]; [destruct Hb|].
  destruct Hb as [->|Hb]; [right; exact Ha|].
  right. rewrite Forall_forall in IH. eapply IH; eassumption.
Qed.

Lemma walk_body_elements (n : node) :
  forall b, map snd (Soup.walk_body b n) = Soup.descendants n.
Proof.
  induction n as [s|nm cls ats cs IH] using node_forall_ind; intros b;
    [reflexivity|].
  cbn [Soup.walk_body Soup.descendants].
  induction cs as [|c cs IHcs]; [reflexivity|].
  inversion IH as [|? ? Hc Hcs]; subst.
  cbn [flat_map]. rewrite map_app, (IHcs Hcs). f_equal.
  destruct c as [s|n1 c1 a1 k1]; [reflexivity|].
  cbn [map snd]. f_equal. apply Hc.
Qed.

Lemma walk_body_outside (n : node) :
  (forall e, In e (Soup.descendants n) -> has_body_content e = false) ->
  forall p, In p (Soup.walk_body false n) -> fst p = false.
Proof.
  induction n as [s|nm cls ats cs IH] using node_forall_ind;
    intros Hno p Hp; [destruct Hp|].
  cbn [Soup.walk_body] in Hp. apply in_flat_map in Hp.
  destruct Hp as [c [Hc Hp]].
  destruct c as [s|n1 c1 a1 k1]; [destruct Hp|].
  assert (Hcd : In (Tag n1 c1 a1 k1) (Soup.descendants (Tag nm cls ats cs))).
  { apply descendants_child. eexists. split; [exact Hc|].
    left; reflexivity. }
  destruct Hp as [<-|Hp]; [reflexivity|].
  pose proof (Hno _ Hcd) as Hid. unfold has_body_content in Hid.
  rewrite Hid in Hp. cbn [orb] in Hp.
  rewrite Forall_forall in IH. apply (IH _ Hc); [|exact Hp].
  intros e He. apply Hno. eapply descendants_trans; eassumption.
Qed.

(** ** Tables under a section heading *)

Lemma find_all_next_suffix (section_title : string) (doc : list (bool * node)) :
  forall sibs, find_all_next_of_heading section_title doc = Some sibs ->
               forall p, In p sibs -> In p doc.
Proof.
  induction doc as [|[b hx] doc IH]; intros sibs H p Hp; [discriminate|].
  cbn [find_all_next_of_heading] in H.
  destruct (b && Soup.heading hx && _).
  - injection H as <-. right. exact Hp.
  - right. eapply IH; eassumption.
Qed.

Lemma find_all_next_at (section_title : string) (pre : list (bool * node)) :
  forall hd tail,
    forallb (fun p => negb (section_heading section_title p)) pre = true ->
    section_heading section_title hd = true ->
    find_all_next_of_heading section_title (pre ++ hd :: tail) = Some tail.
Proof.
  induction pre as [|[b hx] pre IH]; intros [bh hh] tail Hpre Hhd.
  - cbn [app find_all_next_of_heading].
    unfold section_heading in Hhd. cbn [fst snd] in Hhd. now rewrite Hhd.
  - cbn [forallb] in Hpre. apply andb_true_iff in Hpre.
    destruct Hpre as [Hx Hpre]. apply negb_true_iff in Hx.
    unfold section_heading in Hx. cbn [fst snd] in Hx.
    cbn [app find_all_next_of_heading]. rewrite Hx.
    apply IH; assumption.
Qed.

Lemma find_all_next_none (section_title : string) (doc : list (bool * node)) :
  forallb (fun p => negb (section_heading section_title p)) doc = true ->
  find_all_next_of_heading section_title doc = None.
Proof.
  induction doc as [|[b hx] doc IH]; intros H; [reflexivity|].
  cbn [forallb] in H. apply andb_true_iff in H. destruct H as [Hx H].
  apply negb_true_iff in Hx. unfold section_heading in Hx.
  cbn [fst snd] in Hx. cbn [find_all_next_of_heading]. rewrite Hx.
  apply IH. exact H.
Qed.

Lemma wikitables_until_heading_in (sibs : list (bool * node)) (t : node) :
  In t (wikitables_until_heading sibs) ->
  is_wikitable t = true /\ exists b, In (b, t) sibs.
Proof.
  induction sibs as [|[b sib] sibs IH]; intros H; [destruct H|].
  cbn [wikitables_until_heading] in H.
  destruct (Soup.heading sib); [destruct H|].
  destruct (Soup.named "table" sib && Soup.has_class "wikitable" sib) eqn:Hw.
  - destruct H as [<-|H].
    + split; [exact Hw|]. exists b. left. reflexivity.
    + destruct (IH H) as [H1 [b' H2]]. split; [exact H1|].
      exists b'. right. exact H2.
  - destruct (IH H) as [H1 [b' H2]]. split; [exact H1|].
    exists b'. right. exact H2.
Qed.

Lemma wikitables_until_next_heading (mid : list (bool * node)) :
  forall rest,
    forallb (fun p => negb (Soup.heading (snd p))) mid = true ->
    match rest with
    | [] => True
    | p :: _ => Soup.heading (snd p) = true
    end ->
    wikitables_until_heading (mid ++ rest)
    = filter is_wikitable (map snd mid).
Proof.
  induction mid as [|[b e] mid IH]; intros rest Hmid Hrest.
  - destruct rest as [|[b h] rest]; [reflexivity|].
    cbn [app wikitables_until_heading]. cbn [snd] in Hrest.
    now rewrite Hrest.
  - cbn [forallb snd] in Hmid. apply andb_true_iff in Hmid.
    destruct Hmid as [He Hmid]. apply negb_true_iff in He.
    cbn [app wikitables_until_heading map snd filter]. rewrite He.
    unfold is_wikitable at 1.
    destruct (Soup.named "table" e && Soup.has_class "wikitable" e);
      [f_equal|]; apply IH; assumption.
Qed.

(** X1: the tables returned for a section are the wikitables that lie, in
    document order, between the first heading of the page body whose
    title starts with the section title and the next h2 or h3 heading
    (or the end of the document); without such a heading no table is
    returned. *)
Theorem tables_between_headings :
  forall (soup : node) (section_title : string),
    (forallb (fun p => negb (section_heading section_title p))
             (Soup.walk_body false soup) = true
     -> extract_tables_under_section soup section_title = [])
    /\ (forall pre hd mid rest,
          Soup.walk_body false soup = pre ++ hd :: mid ++ rest ->
          forallb (fun p => negb (section_heading section_title p)) pre = true ->
          section_heading section_title hd = true ->
          forallb (fun p => negb (Soup.heading (snd p))) mid = true ->
          match rest with
          | [] => True
          | p :: _ => Soup.heading (snd p) = true
          end ->
          extract_tables_under_section soup section_title
          = filter is_wikitable (map snd mid)).
Proof.
  intros soup section_title. unfold extract_tables_under_section. split.
  - intros H. now rewrite (find_all_next_none _ _ H).
  - intros pre hd mid rest Hdoc Hpre Hhd Hmid Hrest.
    rewrite Hdoc, (find_all_next_at _ pre hd (mid ++ rest) Hpre Hhd).
    apply wikitables_until_next_heading; assumption.
Qed.

Lemma tables_between_headings_witness :
  let doc := Soup.walk_body false Demo.listing_page in
  let pre := firstn 3 doc in
  let hd := nth 3 doc (false, NavigableString "") in
  let mid := firstn 16 (skipn 4 doc) in
  let rest := skipn 20 doc in
  doc = pre ++ hd :: mid ++ rest
  /\ map (fun t => List.length (Soup.select (Soup.named "tr") t))
         (extract_tables_under_section Demo.listing_page "Fraser Health")
     = [3%nat]
  /\ extract_tables_under_section Demo.listing_page "Fraser Health"
     = filter is_wikitable (map snd mid).
Proof.
  intros doc pre hd mid rest.
  assert (Hdoc : doc = pre ++ hd :: mid ++ rest) by reflexivity.
  split; [exact Hdoc|]. split; [reflexivity|].
  apply (proj2 (tables_between_headings Demo.listing_page "Fraser Health")
           pre hd mid rest Hdoc);
    reflexivity.
Defined.

Lemma wikitables_until_heading_in_document (soup : node)
  (section_title : string) (t : node) :
  In t (extract_tables_under_section soup section_title) ->
  is_wikitable t = true /\ In t (Soup.descendants soup).
Proof.
  unfold extract_tables_under_section.
  destruct (find_all_next_of_heading section_title
              (Soup.walk_body false soup)) as [sibs|] eqn:Hf; [|intros []].
  intros H. apply wikitables_until_heading_in in H.
  destruct H as [Hw [b Hb]]. split; [exact Hw|].
  rewrite <- (walk_body_elements soup false).
  apply in_map_iff. exists (b, t). split; [reflexivity|].
  eapply find_all_next_suffix; eassumption.
Qed.

(** X2: every table returned for a section is a [table] element of class
    [wikitable] of the document. *)
Theorem tables_are_wikitables_of_document :
  forall (soup : node) (section_title : string) (t : node),
    In t (extract_tables_under_section soup section_title) ->
    is_wikitable t = true /\ In t (Soup.descendants soup).
Proof. exact wikitables_until_heading_in_document. Qed.

Lemma tables_are_wikitables_of_document_witness :
  let t := nth 0 (extract_tables_under_section Demo.listing_page
                    "Interior Health") (NavigableString "") in
  In t (extract_tables_under_section Demo.listing_page "Interior Health")
  /\ is_wikitable t = true /\ In t (Soup.descendants Demo.listing_page).
Proof.
  intros t.
  assert (H : In t (extract_tables_under_section Demo.listing_page
                      "Interior Health")) by (left; reflexivity).
  split; [exact H|].
  apply (tables_are_wikitables_of_document Demo.listing_page
           "Interior Health" t H).
Defined.

Lemma find_all_next_case (doc : list (bool * node)) (t t' : string) :
  PyStr.lower t = PyStr.lower t' ->
  find_all_next_of_heading t doc = find_all_next_of_heading t' doc.
Proof.
  intros H. induction doc as [|[b hx] doc IH]; [reflexivity|].
  cbn [find_all_next_of_heading]. now rewrite H, IH.
Qed.

(** X3: the section title is matched without regard to letter case: two
    titles that are equal in lower case select the same tables. *)
Theorem section_title_case_insensitive :
  forall (soup : node) (t t' : string),
    PyStr.lower t = PyStr.lower t' ->
    extract_tables_under_section soup t = extract_tables_under_section soup t'.
Proof.
  intros soup t t' H. unfold extract_tables_under_section.
  now rewrite (find_all_next_case _ t t' H).
Qed.

Lemma section_title_case_insensitive_witness :
  PyStr.lower "Fraser Health" = PyStr.lower "FRASER health"
  /\ extract_tables_under_section Demo.listing_page "FRASER health" <> []
  /\ extract_tables_under_section Demo.listing_page "Fraser Health"
     = extract_tables_under_section Demo.listing_page "FRASER health".
Proof.
  split; [reflexivity|]. split; [discriminate|].
  apply (section_title_case_insensitive Demo.listing_page
           "Fraser Health" "FRASER health").
  reflexivity.
Defined.

(** ** Cleaned text *)

Lemma lstrip_sub_ws_true (s : string) :
  PyStr.lstrip (PyStr.sub_ws_from true s) = PyStr.sub_ws_from true s.
Proof.
  induction s as [|c r IH]; [reflexivity|].
  cbn [PyStr.sub_ws_from]. destruct (PyStr.is_space c) eqn:Hc; [exact IH|].
  cbn [PyStr.lstrip]. now rewrite Hc.
Qed.

Lemma lstrip_sub_ws (s : string) :
  PyStr.lstrip (PyStr.sub_ws_from false s) = PyStr.sub_ws_from true s.
Proof.
  destruct s as [|c r]; [reflexivity|].
  cbn [PyStr.sub_ws_from]. destruct (PyStr.is_space c) eqn:Hc.
  - change (PyStr.lstrip (String " " (PyStr.sub_ws_from true r)))
      with (PyStr.lstrip (PyStr.sub_ws_from true r)).
    apply lstrip_sub_ws_true.
  - cbn [PyStr.lstrip]. now rewrite Hc.
Qed.

Lemma tokens_each_nonempty (sep : ascii -> bool) (s : string) :
  Forall (fun t => t <> EmptyString) (tokens sep s).
Proof.
  induction s as [|c r IH]; [constructor|].
  rewrite tokens_cons. destruct (sep c); [exact IH|].
  destruct (starts_token sep r).
  - destruct (tokens sep r) as [|t ts].
    + constructor; [discriminate | constructor].
    + inversion IH; subst. constructor; [discriminate | assumption].
  - constructor; [discriminate | exact IH].
Qed.

Lemma concat_cons2 (sep x y : string) (l : list string) :
  String.concat sep (x :: y :: l)
  = (x ++ sep ++ String.concat sep (y :: l))%string.
Proof. reflexivity. Qed.

Lemma concat_nonempty (sep t : string) (ts : list string) :
  t <> EmptyString ->
  exists c r, String.concat sep (t :: ts) = String c r.
Proof.
  intros Ht. destruct t as [|c t]; [contradiction|].
  destruct ts as [|y l]; [now eexists; eexists|].
  rewrite concat_cons2. now eexists; eexists.
Qed.

Lemma concat_push (c : ascii) (t : string) (ts : list string) :
  String.concat " " (String c t :: ts) = String c (String.concat " " (t :: ts)).
Proof. destruct ts as [|y l]; reflexivity. Qed.

(** Right-stripping the text whose whitespace runs were replaced leaves the
    words joined by single spaces, after one space when the text began
    with whitespace that was not yet part of a run. *)
Lemma rstrip_sub_ws (s : string) :
  PyStr.rstrip (PyStr.sub_ws_from true s)
  = String.concat " " (tokens PyStr.is_space s)
  /\ PyStr.rstrip (PyStr.sub_ws_from false s)
     = match s with
       | String c _ =>
           if PyStr.is_space c
           then match tokens PyStr.is_space s with
                | [] => EmptyString
                | _ :: _ =>
                    String " " (String.concat " " (tokens PyStr.is_space s))
                end
           else String.concat " " (tokens PyStr.is_space s)
       | EmptyString => EmptyString
       end.
Proof.
  induction s as [|c r [IHt IHf]]; [split; reflexivity|].
  pose proof (tokens_each_nonempty PyStr.is_space r) as Hne.
  rewrite tokens_cons. cbn [PyStr.sub_ws_from].
  destruct (PyStr.is_space c) eqn:Hc.
  - split; [exact IHt|].
    cbn [PyStr.rstrip]. rewrite IHt.
    destruct (tokens PyStr.is_space r) as [|t ts]; [reflexivity|].
    inversion Hne as [|? ? Ht _]; subst.
    destruct (concat_nonempty " " t ts Ht) as [x [y ->]]. reflexivity.
  - assert (H : PyStr.rstrip (String c (PyStr.sub_ws_from false r))
                = String.concat " "
                    (if starts_token PyStr.is_space r
                     then match tokens PyStr.is_space r with
                          | [] => [String c EmptyString]
                          | t :: ts => String c t :: ts
                          end
                     else String c EmptyString :: tokens PyStr.is_space r)).
    { cbn [PyStr.rstrip]. rewrite IHf.
      destruct r as [|c' r']; [now rewrite Hc|].
      cbn [starts_token].
      destruct (PyStr.is_space c') eqn:Hc'; cbn [negb].
      - destruct (tokens PyStr.is_space (String c' r')) as [|t ts];
          [now rewrite Hc|].
        rewrite concat_cons2. reflexivity.
      - pose proof (tokens_nonempty PyStr.is_space (String c' r')) as Hst.
        cbn [starts_token] in Hst. rewrite Hc' in Hst.
        specialize (Hst eq_refl).
        destruct (tokens PyStr.is_space (String c' r')) as [|t ts];
          [contradiction|].
        inversion Hne as [|? ? Ht _]; subst.
        rewrite concat_push.
        destruct (concat_nonempty " " t ts Ht) as [x [y ->]]. reflexivity. }
    split; exact H.
Qed.

Lemma clean_text_as_words (s : string) :
  _clean_text s = String.concat " " (tokens PyStr.is_space s).
Proof.
  unfold _clean_text, PyStr.strip, PyStr.sub_ws.
  rewrite lstrip_sub_ws. apply rstrip_sub_ws.
Qed.

Lemma starts_token_space_sub_ws (r : string) :
  starts_token PyStr.is_space (PyStr.sub_ws_from false r)
  = starts_token PyStr.is_space r.
Proof.
  destruct r as [|c r]; [reflexivity|].
  cbn [PyStr.sub_ws_from]. destruct (PyStr.is_space c) eqn:Hc;
    cbn [starts_token]; [|reflexivity].
  now rewrite Hc.
Qed.

Lemma tokens_space_sub_ws (s : string) :
  forall b, tokens PyStr.is_space (PyStr.sub_ws_from b s)
            = tokens PyStr.is_space s.
Proof.
  induction s as [|c r IH]; intros b; [reflexivity|].
  cbn [PyStr.sub_ws_from]. rewrite (tokens_cons _ c r).
  destruct (PyStr.is_space c) eqn:Hc.
  - destruct b; [apply IH|]. rewrite tokens_cons.
    change (PyStr.is_space " ") with true. cbn iota. apply IH.
  - rewrite tokens_cons, Hc, starts_token_space_sub_ws, IH. reflexivity.
Qed.

Lemma clean_text_same_words (s : string) :
  tokens PyStr.is_space (_clean_text s) = tokens PyStr.is_space s.
Proof.
  unfold _clean_text, PyStr.strip, PyStr.sub_ws.
  rewrite tokens_rstrip by (intros c _ H; exact H).
  rewrite tokens_lstrip by (intros c _ H; exact H).
  apply tokens_space_sub_ws.
Qed.

Lemma clean_text_fixed (s : string) : _clean_text (_clean_text s) = _clean_text s.
Proof.
  rewrite (clean_text_as_words (_clean_text s)), clean_text_same_words.
  symmetry. apply clean_text_as_words.
Qed.

Lemma tokens_nil_iff (s : string) :
  tokens PyStr.is_space s = []
  <-> forallb PyStr.is_space (list_ascii_of_string s) = true.
Proof.
  induction s as [|c r IH]; [split; reflexivity|].
  rewrite tokens_cons. cbn [list_ascii_of_string forallb].
  destruct (PyStr.is_space c); cbn [andb]; [exact IH|].
  split; [|discriminate].
  destruct (starts_token PyStr.is_space r); [|discriminate].
  destruct (tokens PyStr.is_space r); discriminate.
Qed.

(** X4: the cleaned text is the text's words, the maximal runs of
    characters that are no whitespace, joined by single spaces; it has
    the words of the text. *)
Theorem clean_text_joins_words :
  forall s : string,
    _clean_text s = String.concat " " (tokens PyStr.is_space s)
    /\ tokens PyStr.is_space (_clean_text s) = tokens PyStr.is_space s.
Proof.
  intros s. split; [apply clean_text_as_words | apply clean_text_same_words].
Qed.

(** X5: cleaning a cleaned text changes nothing. *)
Theorem clean_text_idempotent :
  forall s : string, _clean_text (_clean_text s) = _clean_text s.
Proof. exact clean_text_fixed. Qed.

(** X6: the cleaned text is empty exactly when the text has nothing but
    whitespace. *)
Theorem clean_text_empty_iff_blank :
  forall s : string,
    _clean_text s = EmptyString
    <-> forallb PyStr.is_space (list_ascii_of_string s) = true.
Proof.
  intros s. rewrite <- tokens_nil_iff, clean_text_as_words.
  pose proof (tokens_each_nonempty PyStr.is_space s) as Hne.
  destruct (tokens PyStr.is_space s) as [|t ts]; [split; reflexivity|].
  inversion Hne as [|? ? Ht _]; subst.
  destruct (concat_nonempty " " t ts Ht) as [x [y ->]].
  split; discriminate.
Qed.

(** ** Listing records *)

Section ListingRecords.

Context {E : Extern}.

Lemma row_record_fields (section : string) (tr : node) (r : rec) :
  row_record section tr = Some r ->
  Health_Authority r = section
  /\ Facility_Name r <> EmptyString
  /\ _clean_text (Facility_Name r) = Facility_Name r
  /\ _clean_text (Location_City r) = Location_City r
  /\ Beds_Raw r = None /\ Beds r = None /\ Beds_Source_URL r = None
  /\ exists cell rest,
       Soup.select (fun e => Soup.named "td" e || Soup.named "th" e) tr
       = cell :: rest
       /\ rest <> [] /\ Soup.named "th" cell = false
       /\ Facility_Name r = _clean_text (Soup.get_text " " cell).
Proof.
  unfold row_record.
  destruct (Soup.select _ tr) as [|c0 [|c1 rest]]; try discriminate.
  destruct (Soup.named "th" c0) eqn:Hth; try discriminate.
  destruct (PyStr.nonempty (_clean_text (Soup.get_text " " c0))) eqn:Hn;
    try discriminate.
  cbn [negb]. destruct (extract_coords_from_node tr) as [lat lon].
  intros [= <-]. cbn.
  repeat split; try apply clean_text_fixed.
  - intros H. rewrite H in Hn. discriminate.
  - exists c0, (c1 :: rest). repeat split; [discriminate | exact Hth].
Qed.

Lemma parse_list_tables_rows (html : string) (r : rec) :
  In r (parse_list_tables html) ->
  exists section table tr,
    In section HEALTH_SECTIONS
    /\ In table (extract_tables_under_section (BeautifulSoup html) section)
    /\ In tr (Soup.select (Soup.named "tr") table)
    /\ row_record section tr = Some r.
Proof.
  unfold parse_list_tables. intros H.
  apply in_flat_map in H. destruct H as [section [Hs H]].
  apply in_flat_map in H. destruct H as [table [Ht H]].
  apply in_flat_map in H. destruct H as [tr [Htr H]].
  exists section, table, tr.
  destruct (row_record section tr) as [r'|]; [|destruct H].
  destruct H as [<-|[]]. repeat split; assumption.
Qed.

(** X7: every record built from the listing page has a name that is not
    empty, a name and a city in cleaned form, one of the eight section
    titles as health authority, and no capacity fields yet. *)
Theorem listing_records_wellformed :
  forall (html : string) (r : rec),
    In r (parse_list_tables html) ->
    Facility_Name r <> EmptyString
    /\ _clean_text (Facility_Name r) = Facility_Name r
    /\ _clean_text (Location_City r) = Location_City r
    /\ In (Health_Authority r) HEALTH_SECTIONS
    /\ Beds_Raw r = None /\ Beds r = None /\ Beds_Source_URL r = None.
Proof.
  intros html r H.
  destruct (parse_list_tables_rows html r H) as [section [table [tr [Hs [_ [_ Hr]]]]]].
  destruct (row_record_fields section tr r Hr)
    as [Hsec [Hn [Hcn [Hcc [H1 [H2 [H3 _]]]]]]].
  rewrite Hsec. repeat split; assumption.
Qed.

(** X8: every record built from the listing page comes from a [tr] row
    of a wikitable of the page; the row has at least two cells, its
    first cell is no header cell, and the name of the record is the
    cleaned text of that cell. *)
Theorem listing_records_come_from_rows :
  forall (html : string) (r : rec),
    In r (parse_list_tables html) ->
    exists table tr cell rest,
      In table (Soup.descendants (BeautifulSoup html))
      /\ is_wikitable table = true
      /\ In tr (Soup.descendants table) /\ Soup.named "tr" tr = true
      /\ Soup.select (fun e => Soup.named "td" e || Soup.named "th" e) tr
         = cell :: rest
      /\ rest <> [] /\ Soup.named "th" cell = false
      /\ Facility_Name r = _clean_text (Soup.get_text " " cell).
Proof.
  intros html r H.
  destruct (parse_list_tables_rows html r H)
    as [section [table [tr [_ [Ht [Htr Hr]]]]]].
  destruct (row_record_fields section tr r Hr)
    as [_ [_ [_ [_ [_ [_ [_ [cell [rest [Hc [Hrest [Hth Hname]]]]]]]]]]]].
  apply wikitables_until_heading_in_document in Ht.
  destruct Ht as [Hw Hd].
  unfold Soup.select in Htr. apply filter_In in Htr. destruct Htr as [Htr Hn].
  exists table, tr, cell, rest. repeat split; assumption.
Qed.

(** X9: after record building, latitude and longitude of every record
    are both present or both absent. *)
Theorem listing_records_paired :
  forall (html : string) (r : rec),
    In r (parse_list_tables html) -> paired (Latitude r) (Longitude r).
Proof.
  intros html r H.
  destruct (parse_list_tables_rows html r H) as [section [_ [tr [_ [_ [_ Hr]]]]]].
  eapply row_record_paired. exact Hr.
Qed.

End ListingRecords.

Lemma listing_records_wellformed_witness :
  let r := nth 0 (@parse_list_tables Demo.lib "<listing>")
               (plain_rec "" "" "") in
  In r (@parse_list_tables Demo.lib "<listing>")
  /\ Facility_Name r = "Zero Clinic"
  /\ In (Health_Authority r) HEALTH_SECTIONS.
Proof.
  intros r.
  assert (H : In r (@parse_list_tables Demo.lib "<listing>"))
    by (left; reflexivity).
  split; [exact H|]. split; [reflexivity|].
  apply (@listing_records_wellformed Demo.lib "<listing>" r H).
Defined.

Lemma listing_records_come_from_rows_witness :
  let r := nth 1 (@parse_list_tables Demo.lib "<listing>")
               (plain_rec "" "" "") in
  In r (@parse_list_tables Demo.lib "<listing>")
  /\ Facility_Name r = "Alpha Hospital"
  /\ exists table tr cell rest,
       In table (Soup.descendants (@BeautifulSoup Demo.lib "<listing>"))
       /\ is_wikitable table = true
       /\ In tr (Soup.descendants table) /\ Soup.named "tr" tr = true
       /\ Soup.select (fun e => Soup.named "td" e || Soup.named "th" e) tr
          = cell :: rest
       /\ rest <> [] /\ Soup.named "th" cell = false
       /\ Facility_Name r = _clean_text (Soup.get_text " " cell).
Proof.
  intros r.
  assert (H : In r (@parse_list_tables Demo.lib "<listing>"))
    by (right; left; reflexivity).
  split; [exact H|]. split; [reflexivity|].
  apply (@listing_records_come_from_rows Demo.lib "<listing>" r H).
Defined.

Lemma listing_records_paired_witness :
  let r := nth 0 (@parse_list_tables Demo.lib "<listing>")
               (plain_rec "" "" "") in
  In r (@parse_list_tables Demo.lib "<listing>")
  /\ Latitude r = Some 0%float
  /\ paired (Latitude r) (Longitude r).
Proof.
  intros r.
  assert (H : In r (@parse_list_tables Demo.lib "<listing>"))
    by (left; reflexivity).
  split; [exact H|]. split; [reflexivity|].
  apply (@listing_records_paired Demo.lib "<listing>" r H).
Defined.

(** ** Pages without page body *)

Lemma extract_tables_outside (soup : node) (section_title : string) :
  (forall e, In e (Soup.descendants soup) -> has_body_content e = false) ->
  extract_tables_under_section soup section_title = [].
Proof.
  intros Hno. unfold extract_tables_under_section.
  rewrite find_all_next_none; [reflexivity|].
  apply forallb_forall. intros p Hp.
  unfold section_heading.
  now rewrite (walk_body_outside soup Hno p Hp).
Qed.

Lemma parse_list_tables_outside {E : Extern} (html : string) :
  (forall e, In e (Soup.descendants (BeautifulSoup html)) ->
             has_body_content e = false) ->
  parse_list_tables html = [].
Proof.
  intros Hno. unfold parse_list_tables, HEALTH_SECTIONS.
  cbn [flat_map].
  rewrite !(extract_tables_outside _ _ Hno). reflexivity.
Qed.

(** X10: when the listing page is fetched with status 200 and none of
    its elements has the id [bodyContent], no record is built, and the
    run ends with exit code 3 without writing a file. *)
Theorem page_without_body_content_aborts :
  forall (E : Extern) (w : World) (args : Args) (resp : Response),
    get_listing w LIST_URL = Returned resp ->
    status_code resp = 200%Z ->
    (forall e, In e (Soup.descendants (BeautifulSoup (text resp))) ->
               has_body_content e = false) ->
    parse_list_tables (text resp) = []
    /\ exit_code (main w args) = 3%Z
    /\ written (main w args) = None.
Proof.
  intros E w args resp Hget Hst Hno.
  pose proof (parse_list_tables_outside (text resp) Hno) as Hp.
  split; [exact Hp|].
  unfold main, _fetch. rewrite Hget, Hst. cbn [Z.eqb Pos.eqb ret].
  rewrite Hp. split; reflexivity.
Qed.

Lemma page_without_body_content_aborts_witness :
  let w := {| get_listing := serve 200 "<bare listing>";
              get_detail := fun _ => serve 404 "" |} in
  let args := {| out := "bc_hospitals_from_wikipedia.csv";
                 workers := 10; delay := 0%float |} in
  let page := @BeautifulSoup Pages.lib "<bare listing>" in
  List.length (Soup.select Soup.heading page) = 2%nat
  /\ List.length (Soup.select is_wikitable page) = 2%nat
  /\ List.length (@parse_list_tables Pages.lib "<listing>") = 3%nat
  /\ @parse_list_tables Pages.lib "<bare listing>" = []
  /\ exit_code (@main Pages.lib w args) = 3%Z
  /\ written (@main Pages.lib w args) = None.
Proof.
  intros w args page.
  split; [reflexivity|]. split; [reflexivity|]. split; [reflexivity|].
  apply (page_without_body_content_aborts Pages.lib w args
           (mkResponse 200 "<bare listing>") eq_refl eq_refl).
  assert (H : forallb (fun e => negb (has_body_content e))
                (Soup.descendants page) = true) by reflexivity.
  rewrite forallb_forall in H.
  intros e He. apply negb_true_iff. apply H. exact He.
Defined.

(** ** Enrichment: what a task keeps, fetches and writes *)

Section Tasks.

Context {E : Extern}.

Lemma worker_identity (get : string -> get_result) (r : rec) :
  identity (fst (worker get r)) = identity r.
Proof.
  rewrite worker_result.
  destruct (fst (page_of get r)) as [[[br bi] la] lo]. reflexivity.
Qed.

Lemma enrich_from_identity (get : nat -> string -> get_result) (rows : list rec) :
  forall i, map identity (fst (enrich_from i get rows)) = map identity rows.
Proof.
  induction rows as [|r rows IH]; intros i; [reflexivity|].
  cbn [enrich_from]. unfold bind.
  pose proof (worker_identity (get i) r) as Hw.
  destruct (worker (get i) r) as [r' w1].
  specialize (IH (S i)).
  destruct (enrich_from (S i) get rows) as [rest' w2].
  cbn [ret fst map] in *. now rewrite Hw, IH.
Qed.

(** X11: enrichment returns one record per input record, in the order of
    the input, and keeps the health authority, the name, the city and the
    detail URL of each. *)
Theorem enrichment_keeps_identity :
  forall (get : nat -> string -> get_result) (rows : list rec),
    map identity (fst (enrich_with_hospital_pages get rows))
    = map identity rows.
Proof. intros get rows. apply enrich_from_identity. Qed.

Lemma fetch_warnings (get : string -> get_result) (u : string) :
  (List.length (snd (_fetch get u)) <= 1)%nat
  /\ (fst (_fetch get u) <> None -> snd (_fetch get u) = []).
Proof.
  unfold _fetch. destruct (get u) as [resp|e]; cbn.
  - destruct (status_code resp =? 200)%Z; cbn; split; auto.
    intros H. now elim H.
  - split; auto. intros H. now elim H.
Qed.

Lemma worker_warnings (get : string -> get_result) (r : rec) :
  snd (worker get r)
  = match Hospital_Page_URL r with
    | Some u => if PyStr.nonempty u then snd (_fetch get u) else []
    | None => []
    end.
Proof.
  unfold worker, bind.
  destruct (Hospital_Page_URL r) as [u|]; [|reflexivity].
  destruct (PyStr.nonempty u); [|reflexivity].
  unfold parse_beds_and_coords_from_hospital, bind.
  destruct (_fetch get u) as [[resp|] w]; cbn [snd].
  - destruct (extract_coords_from_node _) as [lat lon].
    destruct (match Soup.select_one _ _ with Some _ => _ | None => _ end)
      as [br bi].
    cbn. now rewrite !app_nil_r.
  - cbn. now rewrite !app_nil_r.
Qed.

(** X12: a record without detail URL, or with an empty one, is enriched
    without any request: the result does not depend on the network, no
    warning is written and the capacity fields are null. *)
Theorem task_without_url_never_fetches :
  forall (get get' : string -> get_result) (r : rec),
    has_url r = false ->
    worker get r = worker get' r
    /\ snd (worker get r) = []
    /\ Beds_Raw (fst (worker get r)) = None
    /\ Beds (fst (worker get r)) = None
    /\ Beds_Source_URL (fst (worker get r)) = None.
Proof.
  intros get get' r Hu. unfold has_url, truthy_str in Hu.
  unfold worker, bind.
  destruct (Hospital_Page_URL r) as [u|].
  - rewrite Hu. cbn. repeat split.
  - cbn. repeat split.
Qed.

Lemma enrich_from_warnings (get : nat -> string -> get_result) (rows : list rec) :
  forall i, (List.length (snd (enrich_from i get rows))
             <= List.length (filter has_url rows))%nat.
Proof.
  induction rows as [|r rows IH]; intros i; [cbn; lia|].
  cbn [enrich_from]. unfold bind.
  pose proof (worker_warnings (get i) r) as Hw.
  destruct (worker (get i) r) as [r' w1].
  specialize (IH (S i)).
  destruct (enrich_from (S i) get rows) as [rest' w2].
  cbn [ret snd fst filter] in *. rewrite app_nil_r, length_app.
  unfold has_url at 1, truthy_str. subst w1.
  destruct (Hospital_Page_URL r) as [u|]; [|cbn; lia].
  destruct (PyStr.nonempty u); [|cbn; lia].
  pose proof (proj1 (fetch_warnings (get i) u)). cbn [List.length]. lia.
Qed.

(** X13: a task writes the warnings of its one fetch and nothing else:
    none without detail URL or when the fetch succeeds, one line when
    the fetch fails; the pool writes at most one warning per record that
    has a detail URL. *)
Theorem enrichment_warnings :
  forall (get : nat -> string -> get_result) (rows : list rec),
    (forall g r,
        snd (worker g r)
        = match Hospital_Page_URL r with
          | Some u => if PyStr.nonempty u then snd (_fetch g u) else []
          | None => []
          end)
    /\ (forall g u, (List.length (snd (_fetch g u)) <= 1)%nat
                    /\ (fst (_fetch g u) <> None -> snd (_fetch g u) = []))
    /\ (List.length (snd (enrich_with_hospital_pages get rows))
        <= List.length (filter has_url rows))%nat.
Proof.
  intros get rows. split; [exact worker_warnings|].
  split; [exact fetch_warnings | apply enrich_from_warnings].
Qed.

Lemma py_or_again (a b : option float) : py_or (py_or a b) b = py_or a b.
Proof.
  unfold py_or. destruct (truthy_float a) eqn:Ha.
  - now rewrite Ha.
  - destruct (truthy_float b); reflexivity.
Qed.

(** X14: enriching an enriched record again, with the same outcome of
    its request, changes nothing. *)
Theorem worker_idempotent :
  forall (get : string -> get_result) (r : rec),
    fst (worker get (fst (worker get r))) = fst (worker get r).
Proof.
  intros get r.
  pose proof (worker_result get r) as H1.
  remember (fst (worker get r)) as r1 eqn:Hr1.
  rewrite worker_result.
  assert (Hu : Hospital_Page_URL r1 = Hospital_Page_URL r).
  { rewrite H1. destruct (fst (page_of get r)) as [[[br bi] la] lo].
    reflexivity. }
  assert (Hp : page_of get r1 = page_of get r)
    by (unfold page_of; now rewrite Hu).
  rewrite Hp. clear Hp Hu Hr1.
  destruct (fst (page_of get r)) as [[[br bi] la] lo].
  subst r1. cbn. now rewrite !py_or_again.
Qed.

End Tasks.

Lemma task_without_url_never_fetches_witness :
  let r := zero_clinic None in
  has_url r = false
  /\ @worker Demo.lib (serve 200 "<detail>") r
     = @worker Demo.lib (serve 404 "") r
  /\ snd (@worker Demo.lib (serve 200 "<detail>") r) = [].
Proof.
  intros r. split; [reflexivity|].
  pose proof (@task_without_url_never_fetches Demo.lib
                (serve 200 "<detail>") (serve 404 "") r eq_refl) as H.
  split; [apply H | apply H].
Defined.


(** ** The recorded capacity *)

Lemma digit_value_bounds (c : ascii) :
  PyStr.is_digit c = true -> (0 <= digit_value c <= 9)%Z.
Proof.
  unfold PyStr.is_digit, digit_value. intros H.
  apply andb_true_iff in H. destruct H as [H1 H2].
  apply N.leb_le in H1, H2. lia.
Qed.

Lemma decimal_value_take_bounds (n : nat) :
  forall s,
    (String.length (PyStr.take_digits n s) <= n)%nat
    /\ (0 <= decimal_value (PyStr.take_digits n s)
        < 10 ^ Z.of_nat (String.length (PyStr.take_digits n s)))%Z.
Proof.
  induction n as [|n IH]; intros s.
  - destruct s; cbn; split; lia.
  - destruct s as [|c r]; [cbn; split; lia|].
    cbn [PyStr.take_digits].
    destruct (PyStr.is_digit c) eqn:Hc; [|cbn; split; lia].
    destruct (IH r) as [Hl Hv]. pose proof (digit_value_bounds c Hc) as Hd.
    cbn [String.length decimal_value]. split; [lia|].
    rewrite Nat2Z.inj_succ, Z.pow_succ_r by lia.
    set (p := (10 ^ Z.of_nat (String.length (PyStr.take_digits n r)))%Z) in *.
    assert (0 < p)%Z by (apply Z.pow_pos_nonneg; lia).
    nia.
Qed.

Lemma int_take_digits (c : ascii) (r : string) :
  PyStr.is_digit c = true ->
  PyStr.int (PyStr.take_digits 4 (String c r))
  = Some (decimal_value (PyStr.take_digits 4 (String c r))).
Proof.
  intros Hc. unfold PyStr.int.
  change (PyStr.take_digits 4 (String c r))
    with (if PyStr.is_digit c then String c (PyStr.take_digits 3 r)
          else EmptyString) at 1.
  rewrite Hc. cbv beta iota.
  rewrite (int_digits_take 4 (String c r) 0). reflexivity.
Qed.

Lemma searched_number_bounds (s : string) (n : Z) :
  match PyStr.search_digits s with
  | Some g => PyStr.int g
  | None => None
  end = Some n ->
  s <> EmptyString /\ (0 <= n <= 9999)%Z.
Proof.
  induction s as [|c r IH]; [discriminate|].
  cbn [PyStr.search_digits]. destruct (PyStr.is_digit c) eqn:Hc.
  - clear IH. rewrite (int_take_digits c r Hc). intros H.
    assert (Hn : n = decimal_value (PyStr.take_digits 4 (String c r)))
      by congruence.
    clear H. subst n. split; [discriminate|].
    destruct (decimal_value_take_bounds 4 (String c r)) as [Hl Hv].
    assert (10 ^ Z.of_nat (String.length (PyStr.take_digits 4 (String c r)))
            <= 10000)%Z.
    { change 10000%Z with (10 ^ 4)%Z. apply Z.pow_le_mono_r; lia. }
    set (p := (10 ^ Z.of_nat
                      (String.length (PyStr.take_digits 4 (String c r))))%Z)
      in *.
    lia.
  - intros H. destruct (IH H) as [_ Hn]. split; [discriminate | exact Hn].
Qed.

Lemma scan_beds_sound (trs : list node) (br : option string) (n : Z) :
  scan_infobox_rows trs = (br, Some n) ->
  (exists raw, br = Some raw /\ raw <> EmptyString) /\ (0 <= n <= 9999)%Z.
Proof.
  induction trs as [|tr rest IH]; [discriminate|].
  cbn [scan_infobox_rows].
  destruct (Soup.select_one (Soup.named "th") tr) as [th|]; [|exact IH].
  destruct (Soup.select_one (Soup.named "td") tr) as [td|]; [|exact IH].
  destruct (PyStr.startswith _ "beds"); [|exact IH].
  intros [= <- H].
  destruct (searched_number_bounds _ n H) as [Hne Hn].
  split; [|exact Hn]. eexists. split; [reflexivity|].
  intros Hraw. rewrite Hraw in Hne. now apply Hne.
Qed.

Section Capacity.

Context {E : Extern}.

Lemma page_of_beds_sound (get : string -> get_result) (r : rec)
  (br : option string) (n : Z) (la lo : option float) :
  fst (page_of get r) = (br, Some n, la, lo) ->
  (exists u, Hospital_Page_URL r = Some u /\ u <> EmptyString)
  /\ (exists raw, br = Some raw /\ raw <> EmptyString)
  /\ (0 <= n <= 9999)%Z.
Proof.
  unfold page_of.
  destruct (Hospital_Page_URL r) as [u|]; [|discriminate].
  destruct (PyStr.nonempty u) eqn:Hu; [|discriminate].
  unfold parse_beds_and_coords_from_hospital, bind.
  destruct (_fetch get u) as [[resp|] w]; [|discriminate].
  destruct (extract_coords_from_node _) as [lat lon].
  destruct (Soup.select_one _ (BeautifulSoup (text resp))) as [infobox|];
    [|discriminate].
  destruct (scan_infobox_rows _) as [br' bi'] eqn:Hscan.
  cbn. intros [= -> -> _ _].
  split; [|apply (scan_beds_sound _ _ _ Hscan)].
  exists u. split; [reflexivity|]. intros ->. discriminate Hu.
Qed.

(** X15: a recorded capacity is a number from 0 to 9999. *)
Theorem recorded_beds_bounded :
  forall (get : string -> get_result) (r : rec) (n : Z),
    Beds (fst (worker get r)) = Some n -> (0 <= n <= 9999)%Z.
Proof.
  intros get r n. rewrite worker_result.
  destruct (fst (page_of get r)) as [[[br bi] la] lo] eqn:Hp.
  cbn. intros ->. apply (page_of_beds_sound get r br n la lo Hp).
Qed.

(** X16: a recorded capacity comes with its evidence: the record then
    has a raw capacity text that is not empty and a source URL, which is
    the detail URL of the record. *)
Theorem recorded_beds_have_source :
  forall (get : string -> get_result) (r : rec) (n : Z),
    Beds (fst (worker get r)) = Some n ->
    exists raw u,
      Beds_Raw (fst (worker get r)) = Some raw /\ raw <> EmptyString
      /\ Hospital_Page_URL r = Some u /\ u <> EmptyString
      /\ Beds_Source_URL (fst (worker get r)) = Some u.
Proof.
  intros get r n. rewrite worker_result.
  destruct (fst (page_of get r)) as [[[br bi] la] lo] eqn:Hp.
  cbn. intros ->.
  destruct (page_of_beds_sound get r br n la lo Hp)
    as [[u [Hu Hne]] [[raw [-> Hraw]] _]].
  exists raw, u. repeat split; try assumption.
  cbn. destruct raw; [contradiction | exact Hu].
Qed.

End Capacity.

Lemma recorded_beds_bounded_witness :
  let r := zero_clinic (Some "https://en.wikipedia.org/wiki/Zero") in
  Beds (fst (@worker Demo.lib (serve 200 "<detail>") r)) = Some 312%Z
  /\ (0 <= 312 <= 9999)%Z.
Proof.
  intros r. split; [reflexivity|].
  apply (@recorded_beds_bounded Demo.lib (serve 200 "<detail>") r 312).
  reflexivity.
Defined.

Lemma recorded_beds_have_source_witness :
  let r := zero_clinic (Some "https://en.wikipedia.org/wiki/Zero") in
  let r' := fst (@worker Demo.lib (serve 200 "<detail>") r) in
  Beds r' = Some 312%Z
  /\ exists raw u,
       Beds_Raw r' = Some raw /\ raw <> EmptyString
       /\ Hospital_Page_URL r = Some u /\ u <> EmptyString
       /\ Beds_Source_URL r' = Some u.
Proof.
  intros r r'. split; [reflexivity|].
  apply (@recorded_beds_have_source Demo.lib (serve 200 "<detail>") r 312).
  reflexivity.
Defined.

(** ** The assembler, once more *)

Lemma drop_duplicates_from_fixed (l : list rec) :
  forall seen,
    NoDup (map name_city l) ->
    (forall r, In r l -> existsb (same_name_city r) seen = false) ->
    drop_duplicates_from seen l = l.
Proof.
  induction l as [|x l IH]; intros seen Hnd Hseen; [reflexivity|].
  cbn [drop_duplicates_from]. rewrite (Hseen x (or_introl eq_refl)).
  f_equal. cbn [map] in Hnd. inversion Hnd as [|? ? Hx Hl]; subst.
  apply IH; [exact Hl|].
  intros r Hr. cbn [existsb].
  rewrite (Hseen r (or_intror Hr)), orb_false_r.
  destruct (same_name_city r x) eqn:Hrx; [|reflexivity].
  exfalso. apply Hx. apply same_name_city_iff in Hrx. rewrite <- Hrx.
  apply in_map. exact Hr.
Qed.

Lemma sort_values_fixed (l : list rec) :
  StronglySorted lex_le l -> sort_values l = l.
Proof.
  induction l as [|x l IH]; intros Hs; [reflexivity|].
  inversion Hs as [|? ? Hl Hx]; subst.
  cbn [sort_values]. rewrite (IH Hl).
  destruct l as [|y l]; [reflexivity|].
  cbn [sort_insert]. inversion Hx as [|? ? Hxy _]; subst.
  apply sort_leb_lex in Hxy. now rewrite Hxy.
Qed.

Lemma drop_duplicates_from_length (l : list rec) :
  forall seen,
    (List.length (drop_duplicates_from seen l) <= List.length l)%nat.
Proof.
  induction l as [|x l IH]; intros seen; [cbn; lia|].
  cbn [drop_duplicates_from].
  destruct (existsb (same_name_city x) seen); cbn [List.length].
  - specialize (IH seen). lia.
  - specialize (IH (x :: seen)). lia.
Qed.

Lemma assemble_length (l : list rec) :
  List.length (assemble l) = List.length (drop_duplicates l).
Proof. apply Permutation_length, sort_values_perm. Qed.

Lemma assemble_bounds (l : list rec) :
  (List.length (assemble l) <= List.length l)%nat
  /\ (l <> [] -> (1 <= List.length (assemble l))%nat).
Proof.
  rewrite assemble_length. unfold drop_duplicates. split.
  - apply drop_duplicates_from_length.
  - destruct l as [|x l]; [intros H; now elim H|].
    intros _. cbn. lia.
Qed.

Lemma assemble_in (l : list rec) (r : rec) : In r (assemble l) -> In r l.
Proof.
  intros H. apply (Permutation_in _ (sort_values_perm _)) in H.
  apply drop_duplicates_from_in in H. apply H.
Qed.

(** X17: assembling an assembled frame changes nothing. *)
Theorem assemble_idempotent :
  forall rows : list rec, assemble (assemble rows) = assemble rows.
Proof.
  intros rows. unfold assemble at 1.
  assert (Hd : drop_duplicates (assemble rows) = assemble rows).
  { apply drop_duplicates_from_fixed; [|reflexivity].
    eapply Permutation_NoDup.
    - apply Permutation_map, Permutation_sym, sort_values_perm.
    - apply drop_duplicates_from_nodup. }
  rewrite Hd. apply sort_values_fixed. apply sort_values_sorted.
Qed.

(** X18: the assembler invents no row and never empties a frame: every
    row of the result is a row of the input, the result has at most as
    many rows as the input, and at least one when the input has one. *)
Theorem assemble_rows_from_input :
  forall rows : list rec,
    (forall r, In r (assemble rows) -> In r rows)
    /\ (List.length (assemble rows) <= List.length rows)%nat
    /\ (rows <> [] -> (1 <= List.length (assemble rows))%nat).
Proof.
  intros rows. split; [intros r; apply assemble_in|]. apply assemble_bounds.
Qed.

Lemma assemble_rows_from_input_witness :
  let rows := [ plain_rec "Interior Health" "Omega Hospital" "Kelowna";
                plain_rec "Fraser Health" "Omega Hospital" "Kelowna" ] in
  rows <> [] /\ List.length (assemble rows) = 1%nat
  /\ (1 <= List.length (assemble rows))%nat.
Proof.
  intros rows.
  assert (H : rows <> []) by discriminate.
  split; [exact H|]. split; [reflexivity|].
  apply (proj2 (proj2 (assemble_rows_from_input rows)) H).
Defined.

(** ** The pipeline end to end *)

Section EndToEnd.

Context {E : Extern}.

Lemma enriched_has_identity (get : nat -> string -> get_result)
  (rows : list rec) (r : rec) :
  In r rows ->
  exists e, In e (fst (enrich_with_hospital_pages get rows))
            /\ identity e = identity r.
Proof.
  intros Hr. apply (in_map identity) in Hr.
  rewrite <- (enrich_from_identity get rows 0) in Hr.
  apply in_map_iff in Hr. destruct Hr as [e [He Hin]].
  exists e. split; assumption.
Qed.

Lemma enriched_from_identity (get : nat -> string -> get_result)
  (rows : list rec) (e : rec) :
  In e (fst (enrich_with_hospital_pages get rows)) ->
  exists r, In r rows /\ identity e = identity r.
Proof.
  intros He. apply (in_map identity) in He.
  unfold enrich_with_hospital_pages in He.
  rewrite (enrich_from_identity get rows 0) in He.
  apply in_map_iff in He. destruct He as [r [Hr Hin]].
  exists r. split; [exact Hin | symmetry; exact Hr].
Qed.

(** X19: from the listing records to the frame no facility is lost and
    none is invented: every (name, city) pair of the input is the pair
    of a row of the frame, and every row of the frame has the health
    authority, name, city and detail URL of an input record. *)
Theorem pipeline_keeps_every_facility :
  forall (get : nat -> string -> get_result) (rows : list rec),
    let frame := assemble (fst (enrich_with_hospital_pages get rows)) in
    (forall r, In r rows ->
               exists r', In r' frame /\ name_city r' = name_city r)
    /\ (forall r', In r' frame ->
                   exists r, In r rows /\ identity r' = identity r).
Proof.
  intros get rows frame. subst frame. split.
  - intros r Hr.
    destruct (enriched_has_identity get rows r Hr) as [e [He Hid]].
    destruct (drop_duplicates_from_covers _ [] e He) as [Hs|[r' [H1 H2]]];
      [discriminate|].
    exists r'. split.
    + eapply Permutation_in; [apply Permutation_sym, sort_values_perm|].
      exact H1.
    + apply same_name_city_iff in H2. rewrite <- H2.
      unfold identity, name_city in *. congruence.
  - intros r' Hr'. apply assemble_in in Hr'.
    apply (enriched_from_identity get rows r' Hr').
Qed.

(** X20: a run that ends with exit code 0 reports a number of rows that
    is at least 1 and at most the number of records built from the
    listing page. *)
Theorem successful_run_row_count :
  forall (w : World) (args : Args),
    exit_code (main w args) = 0%Z ->
    exists resp n,
      fst (_fetch (get_listing w) LIST_URL) = Some resp
      /\ (1 <= n <= List.length (parse_list_tables (text resp)))%nat
      /\ stdout (main w args)
         = [("Wrote " ++ out args ++ " with "
               ++ PyStr.format_thousands n ++ " rows.")%string].
Proof.
  intros w args. unfold main.
  destruct (_fetch (get_listing w) LIST_URL) as [[resp|] warn1];
    [|discriminate].
  destruct (parse_list_tables (text resp)) as [|r0 rows] eqn:Hp;
    [discriminate|].
  destruct (enrich_raises (workers args) (delay args) (r0 :: rows));
    [discriminate|].
  pose proof (enrich_from_length (get_detail w) (r0 :: rows) 0) as Hlen.
  unfold enrich_with_hospital_pages.
  destruct (enrich_from 0 (get_detail w) (r0 :: rows)) as [full warn2].
  cbn [fst] in Hlen. intros _.
  exists resp, (List.length (assemble full)).
  split; [reflexivity|]. split; [|reflexivity].
  rewrite Hp. destruct (assemble_bounds full) as [Hle Hge].
  split; [|lia]. apply Hge. intros ->. discriminate Hlen.
Qed.

End EndToEnd.

Lemma pipeline_keeps_every_facility_witness :
  let rows := @parse_list_tables Demo.lib "<listing>" in
  let frame :=
    assemble (fst (@enrich_with_hospital_pages Demo.lib
                     (fun _ => serve 200 "<detail>") rows)) in
  let r := nth 1 rows (plain_rec "" "" "") in
  In r rows
  /\ map Facility_Name frame
     = ["Alpha Hospital"; "Zero Clinic"; "Omega Hospital"]
  /\ exists r', In r' frame /\ name_city r' = name_city r.
Proof.
  intros rows frame r.
  assert (H : In r rows) by (right; left; reflexivity).
  split; [exact H|]. split; [reflexivity|].
  apply (proj1 (@pipeline_keeps_every_facility Demo.lib
                  (fun _ => serve 200 "<detail>") rows) r H).
Defined.

Lemma successful_run_row_count_witness :
  let w := {| get_listing := serve 200 "<listing>";
              get_detail := fun _ => serve 200 "<detail>" |} in
  let args := {| out := "bc_hospitals_from_wikipedia.csv";
                 workers := 10; delay := 0%float |} in
  exit_code (@main Demo.lib w args) = 0%Z
  /\ stdout (@main Demo.lib w args)
     = ["Wrote bc_hospitals_from_wikipedia.csv with 3 rows."]
  /\ exists resp n,
       fst (_fetch (get_listing w) LIST_URL) = Some resp
       /\ (1 <= n <= List.length (@parse_list_tables Demo.lib (text resp)))%nat
       /\ stdout (@main Demo.lib w args)
          = [("Wrote " ++ out args ++ " with "
                ++ PyStr.format_thousands n ++ " rows.")%string].
Proof.
  intros w args. split; [reflexivity|]. split; [reflexivity|].
  apply (@successful_run_row_count Demo.lib w args). reflexivity.
Defined.

(** ** Coordinates that are no zeros *)

Section SoundCoordinates.

Context {E : Extern}.

Lemma page_of_success (get : string -> get_result) (r : rec)
  (u : string) (resp : Response) :
  Hospital_Page_URL r = Some u -> u <> EmptyString ->
  fst (_fetch get u) = Some resp ->
  snd (fst (fst (page_of get r)))
  = fst (extract_coords_from_node (BeautifulSoup (text resp)))
  /\ snd (fst (page_of get r))
     = snd (extract_coords_from_node (BeautifulSoup (text resp))).
Proof.
  intros Hu Hne Hf. unfold page_of. rewrite Hu.
  destruct u as [|c u]; [contradiction|]. cbn [PyStr.nonempty].
  unfold parse_beds_and_coords_from_hospital, bind.
  destruct (_fetch get (String c u)) as [fr w]. cbn [fst] in Hf. subst fr.
  destruct (extract_coords_from_node _) as [lat lon].
  destruct (match Soup.select_one _ _ with Some _ => _ | None => _ end)
    as [br bi].
  split; reflexivity.
Qed.

Lemma page_of_paired (get : string -> get_result) (r : rec) :
  paired (snd (fst (fst (page_of get r)))) (snd (fst (page_of get r))).
Proof.
  unfold page_of.
  destruct (Hospital_Page_URL r) as [u|]; [|apply paired_none].
  destruct (PyStr.nonempty u); [|apply paired_none].
  unfold parse_beds_and_coords_from_hospital, bind.
  destruct (_fetch get u) as [[resp|] w]; [|apply paired_none].
  pose proof (extract_coords_paired (BeautifulSoup (text resp))) as Hp.
  destruct (extract_coords_from_node _) as [lat lon].
  destruct (match Soup.select_one _ _ with Some _ => _ | None => _ end)
    as [br bi].
  exact Hp.
Qed.

(** X21: coordinates whose truth value is true, that is present
    coordinates other than 0.0, survive enrichment; a record without
    coordinates whose detail page is fetched gets the pair that the
    extractor finds on that page. *)
Theorem coordinates_after_enrichment :
  forall (get : string -> get_result) (r : rec),
    (truthy_float (Latitude r) = true ->
     truthy_float (Longitude r) = true ->
     Latitude (fst (worker get r)) = Latitude r
     /\ Longitude (fst (worker get r)) = Longitude r)
    /\ (forall u resp,
          Latitude r = None -> Longitude r = None ->
          Hospital_Page_URL r = Some u -> u <> EmptyString ->
          fst (_fetch get u) = Some resp ->
          (Latitude (fst (worker get r)), Longitude (fst (worker get r)))
          = extract_coords_from_node (BeautifulSoup (text resp))).
Proof.
  intros get r. split.
  - apply worker_keeps_truthy_coordinates.
  - intros u resp Hla Hlo Hu Hne Hf.
    destruct (worker_fills_absent_coordinates get r Hla Hlo) as [H1 H2].
    destruct (page_of_success get r u resp Hu Hne Hf) as [H3 H4].
    rewrite H1, H2, H3, H4.
    destruct (extract_coords_from_node _); reflexivity.
Qed.

(** X22: enrichment keeps the coordinates paired when no coordinate of
    the record is a zero: if latitude and longitude are both absent, or
    both present with a true truth value, they are both present or both
    absent afterwards. *)
Theorem enrichment_keeps_pairing :
  forall (get : string -> get_result) (r : rec),
    paired (Latitude r) (Longitude r) ->
    (Latitude r = None \/ truthy_float (Latitude r) = true) ->
    (Longitude r = None \/ truthy_float (Longitude r) = true) ->
    paired (Latitude (fst (worker get r))) (Longitude (fst (worker get r))).
Proof.
  intros get r Hp Hla Hlo.
  destruct Hp as [[Ha Ho]|[Ha Ho]].
  - destruct (worker_fills_absent_coordinates get r Ha Ho) as [-> ->].
    apply page_of_paired.
  - destruct Hla as [Hla|Hla]; [contradiction|].
    destruct Hlo as [Hlo|Hlo]; [contradiction|].
    destruct (worker_keeps_truthy_coordinates get r Hla Hlo) as [-> ->].
    right. split; assumption.
Qed.

(** X23: a record whose fetch fails, and whose coordinates are absent or
    have a true truth value, passes through enrichment unchanged except
    that its capacity fields are null. *)
Theorem failed_fetch_passes_through :
  forall (get : string -> get_result) (r : rec) (u : string),
    Hospital_Page_URL r = Some u ->
    fst (_fetch get u) = None ->
    (Latitude r = None \/ truthy_float (Latitude r) = true) ->
    (Longitude r = None \/ truthy_float (Longitude r) = true) ->
    fst (worker get r) = with_null_enrichment r.
Proof. exact worker_failed_fetch_passthrough. Qed.

End SoundCoordinates.

Lemma coordinates_after_enrichment_witness :
  let u := "https://en.wikipedia.org/wiki/Alpha" in
  let kept := {| Health_Authority := "Fraser Health";
                 Facility_Name := "Alpha Hospital";
                 Location_City := "Burnaby";
                 Latitude := Some 10.5%float;
                 Longitude := Some 20.25%float;
                 Hospital_Page_URL := Some u;
                 Beds_Raw := None; Beds := None;
                 Beds_Source_URL := None |} in
  let bare := {| Health_Authority := "Fraser Health";
                 Facility_Name := "Alpha Hospital";
                 Location_City := "Burnaby";
                 Latitude := None; Longitude := None;
                 Hospital_Page_URL := Some u;
                 Beds_Raw := None; Beds := None;
                 Beds_Source_URL := None |} in
  let get := serve 200 "<detail>" in
  (Latitude (fst (@worker Demo.lib get kept)) = Some 10.5%float
   /\ Longitude (fst (@worker Demo.lib get kept)) = Some 20.25%float)
  /\ (Latitude (fst (@worker Demo.lib get bare)),
      Longitude (fst (@worker Demo.lib get bare)))
     = (Some 49.25%float, Some (-123.5)%float).
Proof.
  intros u kept bare get. split.
  - apply (proj1 (@coordinates_after_enrichment Demo.lib get kept));
      reflexivity.
  - rewrite (proj2 (@coordinates_after_enrichment Demo.lib get bare)
               u (mkResponse 200 "<detail>") eq_refl eq_refl eq_refl);
      [reflexivity | discriminate | reflexivity].
Defined.

Lemma enrichment_keeps_pairing_witness :
  let u := "https://en.wikipedia.org/wiki/Alpha" in
  let located := {| Health_Authority := "Fraser Health";
                    Facility_Name := "Alpha Hospital";
                    Location_City := "Burnaby";
                    Latitude := Some 10.5%float;
                    Longitude := Some 20.25%float;
                    Hospital_Page_URL := Some u;
                    Beds_Raw := None; Beds := None;
                    Beds_Source_URL := None |} in
  let bare := {| Health_Authority := "Fraser Health";
                 Facility_Name := "Alpha Hospital";
                 Location_City := "Burnaby";
                 Latitude := None; Longitude := None;
                 Hospital_Page_URL := Some u;
                 Beds_Raw := None; Beds := None;
                 Beds_Source_URL := None |} in
  let get := serve 200 "<detail>" in
  (truthy_float (Latitude located) = true
   /\ truthy_float (Longitude located) = true
   /\ Latitude (fst (@worker Demo.lib get located)) = Some 10.5%float
   /\ paired (Latitude (fst (@worker Demo.lib get located)))
             (Longitude (fst (@worker Demo.lib get located))))
  /\ (Latitude (fst (@worker Demo.lib get bare)) = Some 49.25%float
      /\ paired (Latitude (fst (@worker Demo.lib get bare)))
                (Longitude (fst (@worker Demo.lib get bare)))).
Proof.
  intros u located bare get. split.
  - split; [reflexivity|]. split; [reflexivity|]. split; [reflexivity|].
    apply (@enrichment_keeps_pairing Demo.lib get located).
    + apply paired_some.
    + right. reflexivity.
    + right. reflexivity.
  - split; [reflexivity|].
    apply (@enrichment_keeps_pairing Demo.lib get bare).
    + apply paired_none.
    + left. reflexivity.
    + left. reflexivity.
Defined.

Lemma failed_fetch_passes_through_witness :
  let u := "https://en.wikipedia.org/wiki/Alpha" in
  let r := {| Health_Authority := "Fraser Health";
              Facility_Name := "Alpha Hospital";
              Location_City := "Burnaby";
              Latitude := Some 10.5%float;
              Longitude := Some 20.25%float;
              Hospital_Page_URL := Some u;
              Beds_Raw := None; Beds := None;
              Beds_Source_URL := None |} in
  fst (_fetch (serve 404 "") u) = None
  /\ fst (@worker Demo.lib (serve 404 "") r) = with_null_enrichment r.
Proof.
  intros u r. split; [reflexivity|].
  apply (@failed_fetch_passes_through Demo.lib (serve 404 "") r u);
    first [reflexivity | right; reflexivity].
Defined.

(** ** Capacity extraction, against its description *)

Lemma remove_commas (s : string) : PyStr.remove "," s = without_commas s.
Proof.
  unfold PyStr.remove, without_commas.
  induction s as [|c r IH]; [reflexivity|].
  cbn [PyStr.remove_from String.prefix String.length Nat.sub
       list_ascii_of_string filter].
  destruct (ascii_dec "," c) as [<-|Hne].
  - destruct r; exact IH.
  - destruct (Ascii.eqb_spec c ",") as [->|_]; [now elim Hne|].
    cbn [negb string_of_list_ascii]. now rewrite IH.
Qed.

Lemma lowered_letter (lo up : ascii) :
  In (lo, up) beds_keyword ->
  forall (c : ascii) (b : bool),
    (if ascii_dec lo (PyStr.lower_char c) then b else false)
    = (Ascii.eqb c lo || Ascii.eqb c up) && b.
Proof.
  intros Hin c b. cbn in Hin.
  destruct Hin as [[= <- <-]|[[= <- <-]|[[= <- <-]|[[= <- <-]|[]]]]];
    destruct c as [[] [] [] [] [] [] [] []]; reflexivity.
Qed.

Lemma lowered_keyword (s : string) :
  PyStr.startswith (PyStr.lower s) "beds"
  = starts_with_letters beds_keyword s.
Proof.
  unfold PyStr.startswith, beds_keyword.
  destruct s as [|c1 s]; [reflexivity|].
  cbn [PyStr.lower String.prefix starts_with_letters].
  rewrite (lowered_letter "b" "B") by (cbn; tauto). f_equal.
  destruct s as [|c2 s]; [reflexivity|].
  cbn [PyStr.lower String.prefix starts_with_letters].
  rewrite (lowered_letter "e" "E") by (cbn; tauto). f_equal.
  destruct s as [|c3 s]; [reflexivity|].
  cbn [PyStr.lower String.prefix starts_with_letters].
  rewrite (lowered_letter "d" "D") by (cbn; tauto). f_equal.
  destruct s as [|c4 s]; [reflexivity|].
  cbn [PyStr.lower String.prefix starts_with_letters].
  rewrite (lowered_letter "s" "S") by (cbn; tauto). f_equal.
  destruct (PyStr.lower s); reflexivity.
Qed.

Lemma capacity_row_label (tr : node) : capacity_row tr = capacity_label tr.
Proof.
  unfold capacity_row, capacity_label.
  destruct (Soup.select_one (Soup.named "th") tr) as [th|]; [|reflexivity].
  destruct (Soup.select_one (Soup.named "td") tr) as [td|]; [|reflexivity].
  rewrite clean_text_as_words. apply lowered_keyword.
Qed.

Lemma find_pointwise {A : Type} (f g : A -> bool) (l : list A) :
  (forall x, f x = g x) -> find f l = find g l.
Proof.
  intros H. induction l as [|x l IH]; [reflexivity|].
  cbn [find]. now rewrite H, IH.
Qed.

Lemma scan_is_described (trs : list node) :
  scan_infobox_rows trs = described_capacity trs.
Proof.
  rewrite scan_is_stated. unfold stated_capacity, described_capacity.
  rewrite (find_pointwise capacity_row capacity_label trs capacity_row_label).
  destruct (find capacity_label trs) as [tr|]; [|reflexivity].
  destruct (Soup.select_one (Soup.named "td") tr) as [td|]; [|reflexivity].
  now rewrite clean_text_as_words, remove_commas.
Qed.

(** C7, as stated, fails: the value cell holds the text "312 (acute)"
    followed by a line break; the raw capacity that is recorded is not
    this text but "312 (acute)", its whitespace being normalised. *)
Lemma capacity_raw_is_not_the_raw_text :
  let td := Tag "td" [] []
              [NavigableString ("312 (acute)" ++ PyStr.nl)] in
  let tr := Tag "tr" [] []
              [ Tag "th" [] [] [NavigableString "Beds (2020)"]; td ] in
  Soup.get_text " " td = ("312 (acute)" ++ PyStr.nl)%string
  /\ scan_infobox_rows [tr] = (Some "312 (acute)", Some 312%Z)
  /\ fst (scan_infobox_rows [tr]) <> Some (Soup.get_text " " td).
Proof.
  intros td tr. split; [reflexivity|]. split; [reflexivity|].
  vm_compute. discriminate.
Qed.

(** C7, as amended: on a detail page that was fetched, the rows that
    count are the [tr] rows of the first table of class [infobox]; among
    them the first row decides that has a label cell and a value cell and
    whose label, its whitespace normalised, starts with "beds" in any
    letter case, and the rows after it are ignored.  The raw capacity is
    the text of the value cell with its whitespace normalised (the words
    joined by single spaces), not the raw text; the capacity is the
    number written by the first run of digits of that text without its
    commas, cut after four digits, and is absent when the text has no
    digit.  Without infobox or without such a row both are absent.  The
    label "Beds (2020)" with the value "312 (acute)" gives 312 and
    "312 (acute)". *)
Theorem capacity_extraction :
  (forall trs, scan_infobox_rows trs = described_capacity trs)
  /\ (forall (E : Extern) (get : string -> get_result) (u : string)
             (resp : Response),
        fst (_fetch get u) = Some resp ->
        fst (fst (fst (parse_beds_and_coords_from_hospital get u)))
        = described_page_capacity (BeautifulSoup (text resp)))
  /\ scan_infobox_rows [Pages.row "Beds (2020)" "312 (acute)"]
     = (Some "312 (acute)", Some 312%Z)
  /\ map (fun page =>
            fst (fst (fst (@parse_beds_and_coords_from_hospital Pages.lib
                             (serve 200 page)
                             "https://en.wikipedia.org/wiki/Alpha"))))
         [ "<detail>"; "<spaced>"; "<beds outside>"; "<two tables>";
           "<unknown beds>"; "<empty beds>"; "<listing>" ]
     = [ (Some "312 (acute)", Some 312%Z);
         (Some "1,250 beds", Some 1250%Z);
         (None, None);
         (Some "40", Some 40%Z);
         (Some "unknown", None);
         (Some "", None);
         (None, None) ]
  /\ map (fun trs => scan_infobox_rows trs)
         [ [Pages.row "Number of beds" "10"];
           [Pages.row "beds available" "12345"];
           [ Tag "tr" [] [] [Tag "th" [] [] [NavigableString "Beds"]];
             Pages.row "BEDS" "15 to 20" ];
           [ Tag "tr" [] [] [Tag "td" [] [] [NavigableString "Beds 8"]];
             Pages.row "Bed" "9" ] ]
     = [ (None, None);
         (Some "12345", Some 1234%Z);
         (Some "15 to 20", Some 15%Z);
         (None, None) ].
Proof.
  split; [exact scan_is_described|]. split.
  - intros E get u resp Hf.
    unfold parse_beds_and_coords_from_hospital, bind, described_page_capacity.
    destruct (_fetch get u) as [fr w]. cbn [fst] in Hf. subst fr.
    destruct (extract_coords_from_node _) as [lat lon].
    unfold Soup.select_one, Soup.select.
    destruct (find _ (Soup.descendants (BeautifulSoup (text resp))))
      as [infobox|]; [|reflexivity].
    rewrite <- scan_is_described.
    destruct (scan_infobox_rows _) as [br bi]. reflexivity.
  - repeat split; vm_compute; reflexivity.
Qed.

Lemma capacity_extraction_witness :
  let get := serve 200 "<two tables>" in
  let u := "https://en.wikipedia.org/wiki/Alpha" in
  fst (_fetch get u) = Some (mkResponse 200 "<two tables>")
  /\ described_page_capacity Pages.two_tables_page = (Some "40", Some 40%Z)
  /\ fst (fst (fst (@parse_beds_and_coords_from_hospital Pages.lib get u)))
     = described_page_capacity Pages.two_tables_page.
Proof.
  intros get u. split; [reflexivity|]. split; [reflexivity|].
  apply (proj1 (proj2 capacity_extraction) Pages.lib get u
           (mkResponse 200 "<two tables>")).
  reflexivity.
Defined.
